(** * bedrock-demo.py: connectivity check, client factory and model inventory

    A shallow embedding of [src/bedrock-demo.py].  The script is four
    functions, each calling the one before:

    - [verify_private_connection] resolves the Bedrock host name and
      classifies the address by string prefix;
    - [get_bedrock_client] builds a [Config] and asks the SDK for a client;
    - [list_foundation_models] walks the paginator and keeps the entries
      whose lifecycle status is ['ACTIVE'];
    - [main] logs a report of the models found and returns them.

    Python objects coming from the SDK are dynamically typed, so they are
    embedded as a small universe of values ([value]); dictionaries are
    finite maps with string keys.  Exceptions and [logger] calls are made
    explicit: a computation returns the log records it emitted together
    with either the raised exception or its result.  Everything outside the
    script (the resolver, the SDK, the interpreter's [str()]) is gathered in
    a record of externals that the functions take as an argument. *)

From Stdlib Require Import ZArith NArith Ascii String DecimalString DecimalPos DecimalN Lia.
From stdpp Require Import base option list strings gmap.

#[local] Set Warnings "-register-all".
#[local] Open Scope Z_scope.

(** ** Python values *)

(** The objects the script manipulates: [None], booleans, integers,
    strings (code points below 256, which covers the ASCII text the
    resolver and the service return), lists, and dictionaries keyed by
    strings. *)
Inductive value : Type :=
| VNone
| VBool (b : bool)
| VInt (z : Z)
| VStr (s : string)
| VList (l : list value)
| VDict (d : gmap string value).

(** ** Exceptions *)

(** Subclasses of [OSError] that [socket.gethostbyname] raises. *)
Inductive os_error : Type :=
| PlainOSError      (* e.g. ENETUNREACH *)
| GaiError          (* socket.gaierror: name not found *)
| HError            (* socket.herror *)
| TimeoutError.     (* socket.timeout *)

Inductive exn : Type :=
| KeyError (key : string)
| IndexError
| AttributeError (obj : value) (attr : string)
| TypeError (obj : value)
| ValueError (literal : string)
| OSError (kind : os_error) (strerror : string)
| ClientError (response : value) (operation_name : string)
| OtherException (class_name : string) (message : string)
| NonException (class_name : string).
    (* KeyboardInterrupt, SystemExit, ...: BaseException but not Exception *)

(** [isinstance(e, Exception)] *)
Definition isinstance_Exception (e : exn) : bool :=
  match e with
  | NonException _ => false
  | _ => true
  end.

(** [isinstance(e, ClientError)] *)
Definition isinstance_ClientError (e : exn) : bool :=
  match e with
  | ClientError _ _ => true
  | _ => false
  end.

(** ** Logging and the computation monad *)

Inductive level : Type := INFO | WARNING | ERROR.

Record LogRecord : Type := mkLog { levelname : level; message : string }.

(** A computation: the records handed to [logger], in order, and then
    either the exception that escaped or the value returned. *)
Definition M (A : Type) : Type := (list LogRecord * (exn + A))%type.

#[global] Instance M_ret : MRet M := fun A a => ([], inr a).

#[global] Instance M_bind : MBind M := fun A B k m =>
  match m with
  | (l, inl e) => (l, inl e)
  | (l, inr a) => let '(l', r) := k a in (l ++ l', r)
  end.

Definition raise {A} (e : exn) : M A := ([], inl e).

(** A call that logs nothing: a builtin or an external. *)
Definition lift {A} (r : exn + A) : M A := ([], r).

Definition logger (lv : level) (msg : string) : M unit := ([mkLog lv msg], inr tt).

(** [try: body / except Exception as e: handler e].  An exception that is
    not an [Exception] passes through. *)
Definition try_except_Exception {A} (body : M A) (handler : exn -> M A) : M A :=
  match body with
  | (l, inl e) =>
      if isinstance_Exception e
      then let '(l', r) := handler e in (l ++ l', r)
      else (l, inl e)
  | (l, inr a) => (l, inr a)
  end.

(** [try: body / except ClientError as e: h1 e / except Exception as e: h2 e].
    The clauses are tried in order; an exception raised inside a handler is
    not offered to the other clause. *)
Definition try_except_ClientError_Exception {A}
    (body : M A) (h1 h2 : exn -> M A) : M A :=
  match body with
  | (l, inl e) =>
      if isinstance_ClientError e
      then let '(l', r) := h1 e in (l ++ l', r)
      else if isinstance_Exception e
      then let '(l', r) := h2 e in (l ++ l', r)
      else (l, inl e)
  | (l, inr a) => (l, inr a)
  end.

(** ** String builtins *)

(** [s.startswith(p)] *)
Definition startswith (s p : string) : bool := String.prefix p s.

(** [s.split(sep)] for a one-character separator: every occurrence of
    [sep] cuts, so the result has one more field than there are
    separators. *)
Fixpoint split (s : string) (sep : ascii) : list string :=
  match s with
  | EmptyString => [EmptyString]
  | String c s' =>
      if Ascii.eqb c sep then EmptyString :: split s' sep
      else match split s' sep with
           | f :: fs => String c f :: fs
           | [] => [String c EmptyString]
           end
  end.

(** [l[i]] on a list, for [i >= 0]. *)
Definition list_getitem {A} (l : list A) (i : nat) : exn + A :=
  match l !! i with
  | Some x => inr x
  | None => inl IndexError
  end.

(** White space as [int()] sees it: the ASCII blanks, and the two code
    points below 256 that Unicode classes as white space (NEL and NBSP). *)
Definition is_space (c : ascii) : bool :=
  let n := N_of_ascii c in
  ((9 <=? n)%N && (n <=? 13)%N) || (n =? 32)%N || (n =? 133)%N || (n =? 160)%N.

Definition digit_of_ascii (c : ascii) : option (Decimal.uint -> Decimal.uint) :=
  match c with
  | "0"%char => Some Decimal.D0
  | "1"%char => Some Decimal.D1
  | "2"%char => Some Decimal.D2
  | "3"%char => Some Decimal.D3
  | "4"%char => Some Decimal.D4
  | "5"%char => Some Decimal.D5
  | "6"%char => Some Decimal.D6
  | "7"%char => Some Decimal.D7
  | "8"%char => Some Decimal.D8
  | "9"%char => Some Decimal.D9
  | _ => None
  end.

Fixpoint skip_space (s : string) : string :=
  match s with
  | String c s' => if is_space c then skip_space s' else s
  | EmptyString => EmptyString
  end.

(** The run of digits of a decimal literal.  An underscore may separate two
    digits; [prev_underscore] records that the previous character was one.
    Returns the digits read and the unread rest, or [None] when an
    underscore is doubled or trails. *)
Fixpoint scan_digits (prev_underscore : bool) (s : string)
  : option (Decimal.uint * string) :=
  match s with
  | EmptyString => if prev_underscore then None else Some (Decimal.Nil, EmptyString)
  | String c s' =>
      match digit_of_ascii c with
      | Some d =>
          match scan_digits false s' with
          | Some (u, r) => Some (d u, r)
          | None => None
          end
      | None =>
          if Ascii.eqb c "_"
          then (if prev_underscore then None else scan_digits true s')
          else (if prev_underscore then None else Some (Decimal.Nil, s))
      end
  end.

(** The interpreter's default cap on the number of digits [int()] converts
    ([sys.int_info.default_max_str_digits]). *)
Definition max_str_digits : N := 4300.

(** [int(s)] for a string: optional white space, an optional sign, decimal
    digits (single underscores allowed between digits), optional white
    space.  Anything else is a [ValueError], and so is a run of more than
    [max_str_digits] digits (leading zeros count, underscores do not). *)
Definition py_int (s : string) : exn + Z :=
  let s1 := skip_space s in
  let '(negative, s2) :=
    match s1 with
    | String "+" r => (false, r)
    | String "-" r => (true, r)
    | _ => (false, s1)
    end in
  match s2 with
  | String "_" _ => inl (ValueError s)
  | _ =>
      match scan_digits false s2 with
      | Some (Decimal.Nil, _) => inl (ValueError s)
      | Some (u, r) =>
          if (max_str_digits <? N.of_nat (Decimal.nb_digits u))%N
          then inl (ValueError s)
          else
            match skip_space r with
            | EmptyString => inr (if negative then - Z.of_uint u else Z.of_uint u)
            | _ => inl (ValueError s)
            end
      | None => inl (ValueError s)
      end
  end.

(** [any(l)] on a list of booleans. *)
Definition any (l : list bool) : bool := existsb id l.

(** ** Builtins on values *)

(** [obj.get(key, default)]: only dictionaries have the method. *)
Definition py_get (obj : value) (key : string) (dflt : value) : exn + value :=
  match obj with
  | VDict d => inr (default dflt (d !! key))
  | _ => inl (AttributeError obj "get")
  end.

(** [obj[key]] with a string key. *)
Definition py_getitem (obj : value) (key : string) : exn + value :=
  match obj with
  | VDict d =>
      match d !! key with
      | Some v => inr v
      | None => inl (KeyError key)
      end
  | _ => inl (TypeError obj)
  end.

(** [v == s] against a string literal. *)
Definition py_eq_str (v : value) (s : string) : bool :=
  match v with
  | VStr t => String.eqb t s
  | _ => false
  end.

(** The elements a [for] loop draws from [obj].  A string yields its
    characters and a dictionary its keys (here in the map's own order; the
    script only ever calls [.get] on an element, which raises on any
    string, so the order is not observable). *)
Definition py_iter (obj : value) : exn + list value :=
  match obj with
  | VList l => inr l
  | VStr s => inr ((fun c => VStr (String c EmptyString)) <$> list_ascii_of_string s)
  | VDict d => inr ((fun kv => VStr kv.1) <$> map_to_list d)
  | _ => inl (TypeError obj)
  end.

(** ** The world outside the script *)

(** The keyword arguments the script passes to [Config(...)].  [retries]
    is a dictionary literal in the source. *)
Record ConfigKwargs : Type := mkConfigKwargs {
  region_name : string;
  retries : gmap string value;
  connect_timeout : Z;
  read_timeout : Z;
  endpoint_url : string
}.

(** A [botocore.config.Config] object, as the constructor hands it back. *)
Record Config : Type := mkConfig { user_provided_options : ConfigKwargs }.

(** What iterating [paginator.paginate()] produces: pages one at a time,
    until the service reports the end or a fetch raises. *)
Inductive page_stream : Type :=
| PagesEnd
| PagesNext (page : value) (rest : page_stream)
| PagesRaise (e : exn).

Record Paginator : Type := mkPaginator { paginate : page_stream }.

Record Client : Type := mkClient { get_paginator : string -> exn + Paginator }.

(** The collaborators the script calls but does not define. *)
Record Externals : Type := mkExternals {
  (** [socket.gethostbyname(host)] *)
  socket_gethostbyname : string -> exn + string;
  (** [Config(...)]: the constructor checks its keywords and may raise *)
  botocore_Config : ConfigKwargs -> exn + Config;
  (** [boto3.client(service_name=..., config=...)] *)
  boto3_client : string -> Config -> exn + Client;
  (** [str(e)] for an exception *)
  str_exn : exn -> string;
  (** [str(v)] for a list or a dictionary *)
  str_container : value -> string
}.

(** [f"{v}"]: a string formats as itself. *)
Definition py_str (w : Externals) (v : value) : string :=
  match v with
  | VStr s => s
  | VNone => "None"
  | VBool true => "True"
  | VBool false => "False"
  | VInt z => NilEmpty.string_of_int (Z.to_int z)
  | _ => str_container w v
  end.

(** ** verify_private_connection *)

(** Lines 23-27: the three tests collected by [any([...])].  The list is
    built before [any] runs, so all three are evaluated; only the middle
    one can raise, and only after its [startswith] guard. *)
Definition is_private_ip (endpoint_ip : string) : exn + bool :=
  let t1 := startswith endpoint_ip "10." in
  match
    (if startswith endpoint_ip "172."
     then match list_getitem (split endpoint_ip ".") 1 with
          | inr field =>
              match py_int field with
              | inr n => inr ((16 <=? n) && (n <=? 31))
              | inl e => inl e
              end
          | inl e => inl e
          end
     else inr false)
  with
  | inr t2 =>
      let t3 := startswith endpoint_ip "192.0." in
      inr (any [t1; t2; t3])
  | inl e => inl e
  end.

Definition verify_private_connection (w : Externals) : M bool :=
  try_except_Exception
    (let bedrock_endpoint := "bedrock.us-east-1.amazonaws.com" in
     endpoint_ip ← lift (socket_gethostbyname w bedrock_endpoint);
     is_private ← lift (is_private_ip endpoint_ip);
     (if is_private : bool
      then logger INFO ("Verified private connection. Endpoint " +:+ bedrock_endpoint
                        +:+ " resolved to private IP: " +:+ endpoint_ip)
      else logger WARNING ("Public IP detected: " +:+ endpoint_ip
                           +:+ ". Traffic might not be using VPC endpoints!"));;
     mret is_private)
    (fun e =>
       logger ERROR ("Error verifying private connection: " +:+ str_exn w e);;
       mret false).

(** ** get_bedrock_client *)

(** Lines 51-58: the keyword arguments of the configuration. *)
Definition config_kwargs (region : string) : ConfigKwargs :=
  {| region_name := region;
     retries := {[ "max_attempts" := VInt 3; "mode" := VStr "standard" ]};
     connect_timeout := 5;
     read_timeout := 10;
     endpoint_url := "https://bedrock." +:+ region +:+ ".amazonaws.com" |}.

(** [region_name=None] stands for a call that omits the argument. *)
Definition get_bedrock_client (w : Externals) (region : option string) : M Client :=
  let region_name := default "us-east-1" region in
  try_except_Exception
    (is_private ← verify_private_connection w;
     (if negb is_private
      then logger WARNING "Traffic might be flowing over public internet!"
      else mret tt);;
     config ← lift (botocore_Config w (config_kwargs region_name));
     bedrock_client ← lift (boto3_client w "bedrock" config);
     mret bedrock_client)
    (fun e =>
       logger ERROR ("Error creating Bedrock client: " +:+ str_exn w e);;
       raise e).

(** ** list_foundation_models *)

(** Line 89: [model.get('modelLifecycle', {}).get('status') == 'ACTIVE'] *)
Definition is_active (model : value) : exn + bool :=
  match py_get model "modelLifecycle" (VDict ∅) with
  | inr lifecycle =>
      match py_get lifecycle "status" VNone with
      | inr status => inr (py_eq_str status "ACTIVE")
      | inl e => inl e
      end
  | inl e => inl e
  end.

(** Lines 90-95: the dictionary appended for an active model.  The two
    subscripts are evaluated first, in this order. *)
Definition enabled_model (model : value) : exn + gmap string value :=
  match py_getitem model "modelId" with
  | inr model_id =>
      match py_getitem model "providerName" with
      | inr provider =>
          match py_get model "inputModalities" (VList []) with
          | inr input =>
              match py_get model "outputModalities" (VList []) with
              | inr output =>
                  inr ({[ "modelId" := model_id;
                          "provider" := provider;
                          "inputModalities" := input;
                          "outputModalities" := output ]} : gmap string value)
              | inl e => inl e
              end
          | inl e => inl e
          end
      | inl e => inl e
      end
  | inl e => inl e
  end.

(** Lines 88-95: the inner loop over one page's entries. *)
Fixpoint for_models (models : list value) (enabled_models : list (gmap string value))
  : exn + list (gmap string value) :=
  match models with
  | [] => inr enabled_models
  | model :: models' =>
      match is_active model with
      | inr true =>
          match enabled_model model with
          | inr em => for_models models' (enabled_models ++ [em])
          | inl e => inl e
          end
      | inr false => for_models models' enabled_models
      | inl e => inl e
      end
  end.

(** Lines 87-95: the outer loop.  The next page is fetched only after the
    current one has been processed. *)
Fixpoint for_pages (pages : page_stream) (enabled_models : list (gmap string value))
  : exn + list (gmap string value) :=
  match pages with
  | PagesEnd => inr enabled_models
  | PagesRaise e => inl e
  | PagesNext page rest =>
      match py_getitem page "modelSummaries" with
      | inr summaries =>
          match py_iter summaries with
          | inr models =>
              match for_models models enabled_models with
              | inr enabled_models' => for_pages rest enabled_models'
              | inl e => inl e
              end
          | inl e => inl e
          end
      | inl e => inl e
      end
  end.

(** Lines 80-97: the body of the [try]. *)
Definition list_foundation_models_body (w : Externals) : M (list (gmap string value)) :=
  client ← get_bedrock_client w None;
  paginator ← lift (get_paginator client "list_foundation_models");
  lift (for_pages (paginate paginator) []).

(** [e.response] of a [ClientError]. *)
Definition response_of (e : exn) : value :=
  match e with
  | ClientError response _ => response
  | _ => VNone
  end.

Definition list_foundation_models (w : Externals) : M (list (gmap string value)) :=
  try_except_ClientError_Exception
    (list_foundation_models_body w)
    (fun e =>
       err ← lift (py_getitem (response_of e) "Error");
       error_code ← lift (py_getitem err "Code");
       err' ← lift (py_getitem (response_of e) "Error");
       error_message ← lift (py_getitem err' "Message");
       logger ERROR ("AWS Error: " +:+ py_str w error_code +:+ " - "
                     +:+ py_str w error_message);;
       raise e)
    (fun e =>
       logger ERROR ("Unexpected error: " +:+ str_exn w e);;
       raise e).

(** ** main *)

(** [sep.join(obj)]: the items are drawn first, then checked to be strings,
    left to right.  A string yields its characters and a dictionary its
    keys, in insertion order; the embedding of dictionaries does not keep
    that order, so it is supplied as [key_order]. *)
Fixpoint join_items (sep : string) (items : list value) : exn + string :=
  match items with
  | [] => inr EmptyString
  | VStr s :: items' =>
      match join_items sep items' with
      | inr rest =>
          inr (match items' with
               | [] => s
               | _ => s +:+ sep +:+ rest
               end)
      | inl e => inl e
      end
  | item :: _ => inl (TypeError item)
  end.

Definition py_join (key_order : gmap string value -> list string)
    (sep : string) (obj : value) : exn + string :=
  match obj with
  | VList l => join_items sep l
  | VStr s =>
      inr (String.concat sep
             ((fun c => String c EmptyString) <$> list_ascii_of_string s))
  | VDict d => inr (String.concat sep (key_order d))
  | _ => inl (TypeError obj)
  end.

(** [s * n] *)
Fixpoint py_mul (s : string) (n : nat) : string :=
  match n with
  | O => EmptyString
  | S n' => s +:+ py_mul s n'
  end.

(** [f"{len(l)}"] *)
Definition str_len {A} (l : list A) : string :=
  NilEmpty.string_of_uint (Nat.to_uint (length l)).

(** Lines 120-124: the five records logged for one model. *)
Definition report_model (key_order : gmap string value -> list string)
    (w : Externals) (model : gmap string value) : M unit :=
  model_id ← lift (py_getitem (VDict model) "modelId");
  logger INFO ("Model ID: " +:+ py_str w model_id);;
  provider ← lift (py_getitem (VDict model) "provider");
  logger INFO ("Provider: " +:+ py_str w provider);;
  input ← lift (py_getitem (VDict model) "inputModalities");
  input_joined ← lift (py_join key_order ", " input);
  logger INFO ("Input Modalities: " +:+ input_joined);;
  output ← lift (py_getitem (VDict model) "outputModalities");
  output_joined ← lift (py_join key_order ", " output);
  logger INFO ("Output Modalities: " +:+ output_joined);;
  logger INFO (py_mul "-" 50).

(** Lines 119-124: the loop over the models. *)
Fixpoint for_report (key_order : gmap string value -> list string)
    (w : Externals) (models : list (gmap string value)) : M unit :=
  match models with
  | [] => mret tt
  | model :: models' =>
      report_model key_order w model;;
      for_report key_order w models'
  end.

(** Lines 113-130. *)
Definition main (key_order : gmap string value -> list string)
    (w : Externals) : M (list (gmap string value)) :=
  try_except_Exception
    (logger INFO "Starting to fetch enabled Bedrock models...";;
     models ← list_foundation_models w;
     logger INFO ("Found " +:+ str_len models +:+ " enabled models:");;
     for_report key_order w models;;
     mret models)
    (fun e =>
       logger ERROR ("Failed to list models: " +:+ str_exn w e);;
       raise e).

(** ** Vocabulary for the statements *)

(** The host name the check resolves (line 18). *)
Definition bedrock_endpoint : string := "bedrock.us-east-1.amazonaws.com".

(** Decimal text of an octet, and the dotted-quad text of an address. *)
Definition str_N (n : N) : string := NilEmpty.string_of_uint (N.to_uint n).

Definition dotted_quad (a b c d : N) : string :=
  str_N a +:+ "." +:+ str_N b +:+ "." +:+ str_N c +:+ "." +:+ str_N d.

(** The outcome of a computation, without its log. *)
Definition outcome {A} (m : M A) : exn + A := m.2.

Definition logged {A} (m : M A) : list LogRecord := m.1.

(** What the SDK answers when asked for a Bedrock client configured for
    [region]: the constructor of [Config] first, then [boto3.client]. *)
Definition sdk_client (w : Externals) (region : string) : exn + Client :=
  match botocore_Config w (config_kwargs region) with
  | inr config => boto3_client w "bedrock" config
  | inl e => inl e
  end.

(** A paginator that delivers the given pages and then stops. *)
Fixpoint stream_of (pages : list value) : page_stream :=
  match pages with
  | [] => PagesEnd
  | p :: ps => PagesNext p (stream_of ps)
  end.

(** A paginator that delivers the given pages and then raises. *)
Fixpoint stream_failing (pages : list value) (e : exn) : page_stream :=
  match pages with
  | [] => PagesRaise e
  | p :: ps => PagesNext p (stream_failing ps e)
  end.

(** The pages a stream delivers before it ends or raises. *)
Fixpoint stream_pages (s : page_stream) : list value :=
  match s with
  | PagesNext p rest => p :: stream_pages rest
  | _ => []
  end.

(** The entries of all the pages of a stream that ends normally, in the
    order the loops visit them; [None] when the stream raises or a page has
    no iterable ['modelSummaries']. *)
Fixpoint stream_entries (s : page_stream) : option (list value) :=
  match s with
  | PagesEnd => Some []
  | PagesRaise _ => None
  | PagesNext page rest =>
      match py_getitem page "modelSummaries" with
      | inr summaries =>
          match py_iter summaries, stream_entries rest with
          | inr models, Some entries => Some (models ++ entries)
          | _, _ => None
          end
      | inl _ => None
      end
  end.

(** The page stream the inventory iterates over, when the client and the
    paginator are obtained without error. *)
Definition paginator_pages (w : Externals) : exn + page_stream :=
  match outcome (get_bedrock_client w None) with
  | inr client =>
      match get_paginator client "list_foundation_models" with
      | inr paginator => inr (paginate paginator)
      | inl e => inl e
      end
  | inl e => inl e
  end.

(** The model entries of a well-shaped page: a dictionary whose
    ['modelSummaries'] is a list. *)
Definition page_models (page : value) : option (list value) :=
  match page with
  | VDict d =>
      match d !! "modelSummaries" with
      | Some (VList ms) => Some ms
      | _ => None
      end
  | _ => None
  end.

(** The [modelLifecycle.status] field of an entry, when both levels are
    present. *)
Definition lifecycle_status (model : value) : option value :=
  match model with
  | VDict d =>
      match d !! "modelLifecycle" with
      | Some (VDict lc) => lc !! "status"
      | _ => None
      end
  | _ => None
  end.

Definition status_is (s : string) (model : value) : bool :=
  match lifecycle_status model with
  | Some (VStr t) => String.eqb t s
  | _ => false
  end.

(** A model summary as the service sends it: a dictionary that carries
    [modelId] and [providerName]; [modelLifecycle], when present, is a
    dictionary.  The modality fields are optional. *)
Definition summary_ok (model : value) : bool :=
  match model with
  | VDict d =>
      bool_decide (is_Some (d !! "modelId"))
      && bool_decide (is_Some (d !! "providerName"))
      && match d !! "modelLifecycle" with
         | None | Some (VDict _) => true
         | Some _ => false
         end
  | _ => false
  end.

(** [em] is the normalized record of [model]: identifier and provider
    copied, absent modality fields replaced by the empty list. *)
Definition normalizes (model : value) (em : gmap string value) : Prop :=
  ∃ d model_id provider,
    model = VDict d
    ∧ d !! "modelId" = Some model_id
    ∧ d !! "providerName" = Some provider
    ∧ em = {[ "modelId" := model_id;
              "provider" := provider;
              "inputModalities" := default (VList []) (d !! "inputModalities");
              "outputModalities" := default (VList []) (d !! "outputModalities") ]}.

(** A dictionary literal. *)
Definition dict (items : list (string * value)) : value := VDict (list_to_map items).

(** A [ClientError] is structured when its response carries
    ['Error']['Code'] and ['Error']['Message']. *)
Definition structured (e : exn) (code message : value) : Prop :=
  ∃ response operation_name err,
    e = ClientError response operation_name
    ∧ py_getitem response "Error" = inr err
    ∧ py_getitem err "Code" = inr code
    ∧ py_getitem err "Message" = inr message.

(** ** Sample collaborators, used to exercise the statements *)

Definition class_name_of (e : exn) : string :=
  match e with
  | KeyError _ => "KeyError"
  | IndexError => "IndexError"
  | AttributeError _ _ => "AttributeError"
  | TypeError _ => "TypeError"
  | ValueError _ => "ValueError"
  | OSError _ _ => "OSError"
  | ClientError _ _ => "ClientError"
  | OtherException c _ => c
  | NonException c => c
  end.

(** A client whose paginator delivers [s] for every operation. *)
Definition sample_client (s : page_stream) : Client :=
  mkClient (fun _ => inr (mkPaginator s)).

(** A world in which the resolver answers [resolved], the SDK accepts every
    configuration and hands out [sample_client s]. *)
Definition sample_world (resolved : exn + string) (s : page_stream) : Externals :=
  {| socket_gethostbyname := fun _ => resolved;
     botocore_Config := fun kwargs => inr (mkConfig kwargs);
     boto3_client := fun _ _ => inr (sample_client s);
     str_exn := class_name_of;
     str_container := fun _ => "<container>" |}.

Definition sample_model (model_id : string) (status : string) : value :=
  dict [("modelId", VStr model_id);
        ("providerName", VStr "provider");
        ("modelLifecycle", dict [("status", VStr status)])].

Definition sample_page (models : list value) : value :=
  dict [("modelSummaries", VList models)].

Definition throttling : exn :=
  ClientError
    (dict [("Error", dict [("Code", VStr "ThrottlingException");
                           ("Message", VStr "Rate exceeded")])])
    "ListFoundationModels".

(** The resolver fails: name not found. *)
Definition world_unresolved : Externals :=
  sample_world (inl (OSError GaiError "Name or service not known")) PagesEnd.

(** The resolver answers with an address of 172.16.0.0/12. *)
Definition world_private : Externals :=
  sample_world (inr (dotted_quad 172 20 0 1)) PagesEnd.

(** The resolver answers with a public address. *)
Definition world_public : Externals :=
  sample_world (inr (dotted_quad 52 94 133 7)) PagesEnd.

(** The normalized record of [sample_model model_id _]. *)
Definition sample_enabled (model_id : string) : gmap string value :=
  {[ "modelId" := VStr model_id;
     "provider" := VStr "provider";
     "inputModalities" := VList [];
     "outputModalities" := VList [] ]}.

(** One page: an active model followed by a legacy one. *)
Definition stub_pages : list value :=
  [sample_page [sample_model "m1" "ACTIVE"; sample_model "m2" "LEGACY"]].

(** Two pages: one active model, then one active and one inactive model. *)
Definition two_pages : list value :=
  [sample_page [sample_model "a" "ACTIVE"];
   sample_page [sample_model "b" "ACTIVE"; sample_model "c" "LEGACY"]].

Definition world_stub : Externals :=
  sample_world (inr (dotted_quad 52 94 133 7)) (stream_of stub_pages).

Definition world_two_pages : Externals :=
  sample_world (inr (dotted_quad 52 94 133 7)) (stream_of two_pages).

(** The service throttles the second fetch. *)
Definition world_throttled : Externals :=
  sample_world (inr (dotted_quad 52 94 133 7)) (stream_failing stub_pages throttling).

(** An entry without [modelLifecycle], and one whose [modelLifecycle] has
    no [status]. *)
Definition model_without_lifecycle : gmap string value :=
  {[ "modelId" := VStr "m3"; "providerName" := VStr "provider" ]}.

Definition model_without_status : gmap string value :=
  {[ "modelId" := VStr "m4"; "providerName" := VStr "provider";
     "modelLifecycle" := VDict ∅ ]}.

Definition world_without_lifecycle : Externals :=
  sample_world (inr (dotted_quad 52 94 133 7))
    (stream_of [sample_page [VDict model_without_lifecycle; VDict model_without_status]]).

(** An active entry that lacks [modelId]. *)
Definition model_without_id : gmap string value :=
  {[ "providerName" := VStr "provider";
     "modelLifecycle" := dict [("status", VStr "ACTIVE")] ]}.

Definition world_without_id : Externals :=
  sample_world (inr (dotted_quad 52 94 133 7))
    (stream_of [sample_page [sample_model "m1" "ACTIVE"; VDict model_without_id]]).

(** ** Vocabulary and samples for the report *)

(** The exception that leaves the handlers of [list_foundation_models] when
    the body raised [e]: [e] itself, unless [e] is a [ClientError] whose
    response lacks ['Error'], ['Code'] or ['Message'], in which case the
    failing subscript's own exception. *)
Definition reraised (e : exn) : exn :=
  match e with
  | ClientError response _ =>
      match py_getitem response "Error" with
      | inr err =>
          match py_getitem err "Code", py_getitem err "Message" with
          | inr _, inr _ => e
          | inl e', _ => e'
          | inr _, inl e' => e'
          end
      | inl e' => e'
      end
  | _ => e
  end.

(** A record that [main] can print: the four keys are present and both
    modality values can be joined. *)
Definition printable (key_order : gmap string value -> list string)
    (em : gmap string value) : Prop :=
  is_Some (em !! "modelId")
  ∧ is_Some (em !! "provider")
  ∧ (∃ v s, em !! "inputModalities" = Some v ∧ py_join key_order ", " v = inr s)
  ∧ (∃ v s, em !! "outputModalities" = Some v ∧ py_join key_order ", " v = inr s).

(** A modality value as the service documents it: a list of strings. *)
Definition string_list (v : value) : bool :=
  match v with
  | VList l => forallb (fun item => match item with VStr _ => true | _ => false end) l
  | _ => false
  end.

(** An entry whose modality fields, when present, are lists of strings. *)
Definition modalities_ok (model : value) : bool :=
  match model with
  | VDict d =>
      match d !! "inputModalities" with Some v => string_list v | None => true end
      && match d !! "outputModalities" with Some v => string_list v | None => true end
  | _ => false
  end.

(** The pages of [pages], followed by the stream [s]. *)
Fixpoint stream_prepend (pages : list value) (s : page_stream) : page_stream :=
  match pages with
  | [] => s
  | p :: ps => PagesNext p (stream_prepend ps s)
  end.

(** The first record of every run of [main]. *)
Definition start_record : LogRecord :=
  mkLog INFO "Starting to fetch enabled Bedrock models...".

(** Keys in the order the map lists them. *)
Definition sample_key_order (d : gmap string value) : list string :=
  (map_to_list d).*1.

(** The resolver is interrupted from the keyboard. *)
Definition world_interrupted : Externals :=
  sample_world (inl (NonException "KeyboardInterrupt")) PagesEnd.

(** The SDK cannot build a client. *)
Definition no_credentials : exn :=
  OtherException "NoCredentialsError" "Unable to locate credentials".

Definition world_no_credentials : Externals :=
  {| socket_gethostbyname := fun _ => inr (dotted_quad 52 94 133 7);
     botocore_Config := fun kwargs => inr (mkConfig kwargs);
     boto3_client := fun _ _ => inl no_credentials;
     str_exn := class_name_of;
     str_container := fun _ => "<container>" |}.

(** An active entry whose [inputModalities] is present and null. *)
Definition model_null_modality : gmap string value :=
  {[ "modelId" := VStr "m5"; "providerName" := VStr "provider";
     "modelLifecycle" := dict [("status", VStr "ACTIVE")];
     "inputModalities" := VNone ]}.

Definition world_null_modality : Externals :=
  sample_world (inr (dotted_quad 52 94 133 7))
    (stream_of [sample_page [VDict model_null_modality]]).

(** The second page has no ['modelSummaries']; a third page follows. *)
Definition world_page_without_summaries : Externals :=
  sample_world (inr (dotted_quad 52 94 133 7))
    (stream_prepend stub_pages
       (PagesNext (dict [("nextToken", VStr "t")]) (stream_of two_pages))).

(** A [ClientError] whose response has no ['Error']. *)
Definition bare_client_error : exn :=
  ClientError (dict [("ResponseMetadata", dict [])]) "ListFoundationModels".

Definition world_bare_client_error : Externals :=
  sample_world (inr (dotted_quad 52 94 133 7))
    (stream_failing stub_pages bare_client_error).

(** * Properties *)

(** ** Decimal text *)

Lemma split_string_of_uint (u : Decimal.uint) (r : string) :
  split (NilEmpty.string_of_uint u +:+ "." +:+ r) "." =
  NilEmpty.string_of_uint u :: split r ".".
Proof.
  induction u; simpl; try rewrite IHu; reflexivity.
Qed.

Lemma scan_digits_string_of_uint (u : Decimal.uint) :
  scan_digits false (NilEmpty.string_of_uint u) = Some (u, EmptyString).
Proof.
  induction u; simpl; try rewrite IHu; reflexivity.
Qed.

Lemma py_int_string_of_uint (u : Decimal.uint) :
  u ≠ Decimal.Nil →
  (N.of_nat (Decimal.nb_digits u) <= max_str_digits)%N →
  py_int (NilEmpty.string_of_uint u) = inr (Z.of_uint u).
Proof.
  intros Hu Hlen. apply N.ltb_ge in Hlen. unfold py_int.
  destruct u; try congruence; simpl; rewrite scan_digits_string_of_uint;
    simpl in Hlen |- *; rewrite Hlen; reflexivity.
Qed.

Lemma to_uint_nonnil (n : N) : N.to_uint n ≠ Decimal.Nil.
Proof.
  destruct n as [|p]; [discriminate | apply DecimalPos.Unsigned.to_uint_nonnil].
Qed.

(** An octet has at most three digits. *)
Lemma octet_digits (n : N) :
  (n <= 255)%N → (N.of_nat (Decimal.nb_digits (N.to_uint n)) <= 3)%N.
Proof.
  intros Hn.
  assert (forallb (fun k => (N.of_nat (Decimal.nb_digits (N.to_uint (N.of_nat k))) <=? 3)%N)
            (seq 0 256) = true) as Hall by (vm_compute; reflexivity).
  rewrite forallb_forall in Hall.
  specialize (Hall (N.to_nat n)). rewrite N2Nat.id in Hall.
  apply N.leb_le, Hall, in_seq. lia.
Qed.

Lemma py_int_str_N (n : N) : (n <= 255)%N → py_int (str_N n) = inr (Z.of_N n).
Proof.
  intros Hn. unfold str_N.
  rewrite py_int_string_of_uint.
  - unfold Z.of_uint. f_equal. f_equal. apply DecimalN.Unsigned.of_to.
  - apply to_uint_nonnil.
  - etransitivity; [by apply octet_digits|]. by vm_compute.
Qed.

Lemma split_dotted_quad (a b c d : N) :
  split (dotted_quad a b c d) "." !! 1%nat = Some (str_N b).
Proof.
  unfold dotted_quad, str_N.
  rewrite !split_string_of_uint. reflexivity.
Qed.

Lemma prefix_string_of_uint (u v : Decimal.uint) (p r : string) :
  String.prefix (NilEmpty.string_of_uint v +:+ "." +:+ p)
                (NilEmpty.string_of_uint u +:+ "." +:+ r)
  = Decimal.uint_beq v u && String.prefix p r.
Proof.
  revert u. induction v; intros u; destruct u; simpl; try reflexivity; try apply IHv.
Qed.

Lemma prefix_empty (s : string) : String.prefix EmptyString s = true.
Proof. destruct s; reflexivity. Qed.

Lemma uint_beq_to_uint (m n : N) :
  Decimal.uint_beq (N.to_uint m) (N.to_uint n) = (m =? n)%N.
Proof.
  destruct (N.eqb_spec m n) as [->|Hne].
  - apply Decimal.internal_uint_dec_lb. reflexivity.
  - destruct (Decimal.uint_beq (N.to_uint m) (N.to_uint n)) eqn:E; [|reflexivity].
    apply Decimal.internal_uint_dec_bl in E.
    apply DecimalN.Unsigned.to_uint_inj in E. contradiction.
Qed.

(** ** The address classifier *)

(** On a dotted quad, the middle test reads back the second octet. *)
Lemma is_private_ip_dotted_quad (a b c d : N) :
  (b <= 255)%N →
  let ip := dotted_quad a b c d in
  is_private_ip ip =
  inr (startswith ip "10."
       || (startswith ip "172." && (16 <=? Z.of_N b) && (Z.of_N b <=? 31))
       || startswith ip "192.0.").
Proof.
  intros Hb ip. unfold is_private_ip, list_getitem. subst ip.
  rewrite split_dotted_quad, (py_int_str_N b Hb).
  destruct (startswith (dotted_quad a b c d) "172."); simpl;
    rewrite ?orb_false_r, ?orb_assoc; reflexivity.
Qed.

Lemma startswith_one_octet (n a b c d : N) :
  startswith (dotted_quad a b c d) (str_N n +:+ ".") = (n =? a)%N.
Proof.
  unfold startswith, dotted_quad, str_N.
  change (NilEmpty.string_of_uint (N.to_uint n) +:+ ".")
    with (NilEmpty.string_of_uint (N.to_uint n) +:+ "." +:+ "").
  rewrite prefix_string_of_uint, uint_beq_to_uint, prefix_empty.
  apply andb_true_r.
Qed.

Lemma startswith_two_octets (m n a b c d : N) :
  startswith (dotted_quad a b c d) (str_N m +:+ "." +:+ str_N n +:+ ".")
  = (m =? a)%N && (n =? b)%N.
Proof.
  unfold startswith, dotted_quad, str_N.
  change (NilEmpty.string_of_uint (N.to_uint n) +:+ ".")
    with (NilEmpty.string_of_uint (N.to_uint n) +:+ "." +:+ "").
  rewrite !prefix_string_of_uint, !uint_beq_to_uint, prefix_empty.
  rewrite andb_true_r. reflexivity.
Qed.

(** The classifier in terms of the octets: 10.0.0.0/8, 172.16.0.0/12 and
    192.0.0.0/16. *)
Lemma is_private_ip_octets (a b c d : N) :
  (b <= 255)%N →
  is_private_ip (dotted_quad a b c d) =
  inr ((a =? 10) || ((a =? 172) && (16 <=? b) && (b <=? 31))
       || ((a =? 192) && (b =? 0)))%N.
Proof.
  intros Hb. rewrite (is_private_ip_dotted_quad a b c d Hb).
  change "10." with (str_N 10 +:+ ".").
  change "172." with (str_N 172 +:+ ".").
  change "192.0." with (str_N 192 +:+ "." +:+ str_N 0 +:+ ".").
  rewrite !startswith_one_octet, startswith_two_octets.
  rewrite !(N.eqb_sym _ a), (N.eqb_sym _ b).
  replace (16 <=? Z.of_N b) with (16 <=? b)%N
    by (destruct (Z.leb_spec 16 (Z.of_N b)), (N.leb_spec 16 b); lia).
  replace (Z.of_N b <=? 31) with (b <=? 31)%N
    by (destruct (Z.leb_spec (Z.of_N b) 31), (N.leb_spec b 31); lia).
  reflexivity.
Qed.

Lemma py_int_raises (s : string) (e : exn) : py_int s = inl e → e = ValueError s.
Proof.
  unfold py_int. intros H.
  repeat case_match; congruence.
Qed.

Lemma is_private_ip_raises (ip : string) (e : exn) :
  is_private_ip ip = inl e → isinstance_Exception e = true.
Proof.
  unfold is_private_ip, list_getitem. intros H.
  repeat case_match; simplify_eq; try reflexivity.
  match goal with H : py_int _ = inl _ |- _ => apply py_int_raises in H; subst end.
  reflexivity.
Qed.

(** ** verify_private_connection *)

(** When the resolver answers, the check returns the classifier's verdict,
    or [False] if the classifier raised. *)
Lemma verify_private_connection_resolved (w : Externals) (ip : string) :
  socket_gethostbyname w bedrock_endpoint = inr ip →
  outcome (verify_private_connection w) =
  inr (match is_private_ip ip with inr b => b | inl _ => false end).
Proof.
  intros H. unfold verify_private_connection, outcome.
  change "bedrock.us-east-1.amazonaws.com" with bedrock_endpoint.
  rewrite H. cbn -[isinstance_Exception is_private_ip String.append].
  destruct (is_private_ip ip) as [e|b] eqn:E.
  - cbn -[isinstance_Exception]. rewrite (is_private_ip_raises _ _ E). reflexivity.
  - destruct b; reflexivity.
Qed.

(** When the resolver raises an [Exception], the check returns [False]. *)
Lemma verify_private_connection_failed (w : Externals) (e : exn) :
  socket_gethostbyname w bedrock_endpoint = inl e →
  isinstance_Exception e = true →
  verify_private_connection w =
  ([mkLog ERROR ("Error verifying private connection: " +:+ str_exn w e)], inr false).
Proof.
  intros H He. unfold verify_private_connection.
  change "bedrock.us-east-1.amazonaws.com" with bedrock_endpoint.
  rewrite H. cbn -[isinstance_Exception]. rewrite He. reflexivity.
Qed.

(** C1: for every dotted-quad IPv4 address the resolver returns, the
    connectivity check returns [private] with: [private] is true exactly
    when the text starts with "10.", or starts with "172." and the second
    octet lies in 16..31, or starts with "192.0."; and an address that
    starts with "192.168." is classified as not private. *)
Theorem verify_private_connection_classifies (w : Externals) (a b c d : N) :
  (a <= 255)%N → (b <= 255)%N → (c <= 255)%N → (d <= 255)%N →
  socket_gethostbyname w bedrock_endpoint = inr (dotted_quad a b c d) →
  let ip := dotted_quad a b c d in
  ∃ private : bool,
    outcome (verify_private_connection w) = inr private
    ∧ (private = true ↔
         startswith ip "10." = true
         ∨ (startswith ip "172." = true ∧ 16 <= Z.of_N b <= 31)
         ∨ startswith ip "192.0." = true)
    ∧ (startswith ip "192.168." = true → private = false).
Proof.
  intros _ Hb _ _ Hres ip.
  eexists. split; [|split].
  - rewrite (verify_private_connection_resolved w ip Hres).
    subst ip. rewrite (is_private_ip_dotted_quad a b c d Hb). reflexivity.
  - rewrite !orb_true_iff, !andb_true_iff, !Z.leb_le. tauto.
  - intros H168.
    pose proof (is_private_ip_octets a b c d Hb) as Hoct.
    rewrite (is_private_ip_dotted_quad a b c d Hb) in Hoct. injection Hoct as ->.
    subst ip. revert H168.
    change "192.168." with (str_N 192 +:+ "." +:+ str_N 168 +:+ ".").
    rewrite startswith_two_octets, andb_true_iff, !N.eqb_eq.
    intros [<- <-]. reflexivity.
Qed.

Lemma verify_private_connection_classifies_witness :
  ∃ private : bool,
    outcome (verify_private_connection world_private) = inr private
    ∧ (private = true ↔
         startswith (dotted_quad 172 20 0 1) "10." = true
         ∨ (startswith (dotted_quad 172 20 0 1) "172." = true ∧ 16 <= Z.of_N 20 <= 31)
         ∨ startswith (dotted_quad 172 20 0 1) "192.0." = true)
    ∧ (startswith (dotted_quad 172 20 0 1) "192.168." = true → private = false).
Proof.
  apply (verify_private_connection_classifies world_private 172 20 0 1);
    [lia | lia | lia | lia | reflexivity].
Defined.

(** C6: whatever the resolver does -- it fails with an [Exception]
    ([OSError] and its subclasses for name-not-found, unreachable network
    and timeout), or it returns any string at all -- the connectivity check
    returns a boolean and raises nothing; when the resolver failed the
    boolean is [False]. *)
Theorem verify_private_connection_never_raises (w : Externals) :
  (∀ e, socket_gethostbyname w bedrock_endpoint = inl e →
        isinstance_Exception e = true) →
  ∃ b : bool,
    outcome (verify_private_connection w) = inr b
    ∧ (∀ e, socket_gethostbyname w bedrock_endpoint = inl e → b = false).
Proof.
  intros Hexc.
  destruct (socket_gethostbyname w bedrock_endpoint) as [e|ip] eqn:Hres.
  - exists false. split; [|reflexivity].
    rewrite (verify_private_connection_failed w e Hres (Hexc e eq_refl)).
    reflexivity.
  - eexists. split; [apply (verify_private_connection_resolved w ip Hres)|].
    intros e He. discriminate.
Qed.

Lemma verify_private_connection_never_raises_witness :
  ∃ b : bool,
    outcome (verify_private_connection world_unresolved) = inr b
    ∧ (∀ e, socket_gethostbyname world_unresolved bedrock_endpoint = inl e → b = false).
Proof.
  apply (verify_private_connection_never_raises world_unresolved).
  intros e He. injection He as <-. reflexivity.
Defined.

(** An address whose second field is not a number: [int()] raises
    [ValueError] inside the [try], and the check answers [False]. *)
Example verify_private_connection_unparseable_octet :
  verify_private_connection (sample_world (inr "172.x.y.z") PagesEnd) =
  ([mkLog ERROR "Error verifying private connection: ValueError"], inr false).
Proof. reflexivity. Qed.

(** Every failure of the resolver that is an [OSError] is an [Exception]. *)
Lemma OSError_is_Exception (kind : os_error) (strerror : string) :
  isinstance_Exception (OSError kind strerror) = true.
Proof. reflexivity. Qed.

(** ** get_bedrock_client *)

(** The check either returns or lets through something that is not an
    [Exception]. *)
Lemma verify_private_connection_escapes (w : Externals) (e : exn) :
  outcome (verify_private_connection w) = inl e → isinstance_Exception e = false.
Proof.
  unfold verify_private_connection, outcome, try_except_Exception.
  match goal with |- context [match ?m with (_, _) => _ end] => destruct m as [l [e'|b]] end.
  - cbn -[isinstance_Exception].
    destruct (isinstance_Exception e') eqn:E; cbn; [discriminate | congruence].
  - discriminate.
Qed.

(** The factory's outcome is the SDK's answer, whatever boolean the check
    returned. *)
Lemma get_bedrock_client_outcome (w : Externals) (region : option string) :
  outcome (get_bedrock_client w region) =
  match outcome (verify_private_connection w) with
  | inr _ => sdk_client w (default "us-east-1" region)
  | inl e => inl e
  end.
Proof.
  pose proof (verify_private_connection_escapes w) as Hesc.
  unfold get_bedrock_client, sdk_client, outcome in *.
  destruct (verify_private_connection w) as [l [e|b]];
    cbn -[isinstance_Exception config_kwargs] in *.
  - rewrite (Hesc e eq_refl). reflexivity.
  - destruct b; cbn -[isinstance_Exception config_kwargs];
      (destruct (botocore_Config w _) as [e|config];
       cbn -[isinstance_Exception config_kwargs];
       [destruct (isinstance_Exception e); reflexivity|]);
      (destruct (boto3_client w "bedrock" config) as [e|c];
       cbn -[isinstance_Exception config_kwargs];
       [destruct (isinstance_Exception e); reflexivity | reflexivity]).
Qed.

(** C8: for every region argument (["us-east-1"] when omitted) the factory
    calls [Config] with endpoint URL "https://bedrock.<region>.amazonaws.com",
    connect timeout 5, read timeout 10 and a retry policy of 3 attempts in
    "standard" mode, and hands the resulting object to [boto3.client] for
    the service "bedrock". *)
Theorem get_bedrock_client_configuration (w : Externals) (region : option string) :
  let r := default "us-east-1" region in
  let kwargs := config_kwargs r in
  region_name kwargs = r
  ∧ endpoint_url kwargs = "https://bedrock." +:+ r +:+ ".amazonaws.com"
  ∧ connect_timeout kwargs = 5
  ∧ read_timeout kwargs = 10
  ∧ retries kwargs !! "max_attempts" = Some (VInt 3)
  ∧ retries kwargs !! "mode" = Some (VStr "standard")
  ∧ (∀ k, is_Some (retries kwargs !! k) → k = "max_attempts" ∨ k = "mode")
  ∧ outcome (get_bedrock_client w region) =
    match outcome (verify_private_connection w) with
    | inr _ =>
        match botocore_Config w kwargs with
        | inr config => boto3_client w "bedrock" config
        | inl e => inl e
        end
    | inl e => inl e
    end.
Proof.
  intros r kwargs. repeat split; try reflexivity.
  - intros k [v Hv]. subst kwargs. cbn [retries config_kwargs] in Hv.
    destruct (decide (k = "max_attempts")) as [|H1]; [by left|].
    destruct (decide (k = "mode")) as [|H2]; [by right|].
    rewrite lookup_insert_ne, lookup_singleton_ne in Hv by done. discriminate.
  - apply get_bedrock_client_outcome.
Qed.

(** C9: two runs that share the SDK and differ only in the boolean the
    connectivity check returned end with the same outcome of the factory:
    the client the SDK builds from the same configuration (or the SDK's
    error). *)
Theorem get_bedrock_client_ignores_check
    (w1 w2 : Externals) (region : option string) (b1 b2 : bool) :
  botocore_Config w1 = botocore_Config w2 →
  boto3_client w1 = boto3_client w2 →
  outcome (verify_private_connection w1) = inr b1 →
  outcome (verify_private_connection w2) = inr b2 →
  outcome (get_bedrock_client w1 region) = outcome (get_bedrock_client w2 region)
  ∧ outcome (get_bedrock_client w1 region) = sdk_client w1 (default "us-east-1" region).
Proof.
  intros Hcfg Hsdk H1 H2.
  rewrite !get_bedrock_client_outcome, H1, H2.
  unfold sdk_client. rewrite Hcfg, Hsdk. split; reflexivity.
Qed.

Lemma get_bedrock_client_ignores_check_witness :
  outcome (get_bedrock_client world_private None) =
  outcome (get_bedrock_client world_public None)
  ∧ outcome (get_bedrock_client world_private None) =
    sdk_client world_private (default "us-east-1" None).
Proof.
  apply (get_bedrock_client_ignores_check world_private world_public None true false);
    reflexivity.
Defined.

(** What the boolean does decide: one more WARNING record when it is
    [False]. *)
Lemma get_bedrock_client_logged
    (w : Externals) (region : option string) (l : list LogRecord) (b : bool) :
  verify_private_connection w = (l, inr b) →
  logged (get_bedrock_client w region) =
  l ++ (if b then []
        else [mkLog WARNING "Traffic might be flowing over public internet!"])
    ++ match sdk_client w (default "us-east-1" region) with
       | inl e =>
           if isinstance_Exception e
           then [mkLog ERROR ("Error creating Bedrock client: " +:+ str_exn w e)]
           else []
       | inr _ => []
       end.
Proof.
  intros Hcheck. unfold get_bedrock_client, sdk_client, logged. rewrite Hcheck.
  destruct b; cbn -[isinstance_Exception config_kwargs String.append];
    (destruct (botocore_Config w _) as [e|config];
     cbn -[isinstance_Exception config_kwargs String.append];
     [destruct (isinstance_Exception e); cbn;
      rewrite ?app_nil_r, <- ?app_assoc; reflexivity|]);
    (destruct (boto3_client w "bedrock" config) as [e|c];
     cbn -[isinstance_Exception config_kwargs String.append];
     [destruct (isinstance_Exception e); cbn|];
     rewrite ?app_nil_r, <- ?app_assoc; reflexivity).
Qed.

(** The two sample runs: same outcome, different logs. *)
Example get_bedrock_client_logs_differ :
  logged (get_bedrock_client world_private None) ≠
  logged (get_bedrock_client world_public None).
Proof. vm_compute. discriminate. Qed.

(** ** list_foundation_models: one entry *)

(** Whenever the test of line 89 evaluates, its value is whether the
    entry's [modelLifecycle.status] is the string ['ACTIVE']. *)
Lemma is_active_returns (model : value) (b : bool) :
  is_active model = inr b → b = status_is "ACTIVE" model.
Proof.
  unfold is_active, status_is, lifecycle_status, py_get.
  destruct model as [| | | | |d]; try discriminate.
  destruct (d !! "modelLifecycle") as [[| | | | |lc]|]; cbn; try discriminate.
  - intros [= <-]. unfold py_eq_str. destruct (lc !! "status") as [[]|]; reflexivity.
  - intros [= <-]. reflexivity.
Qed.

Lemma status_is_true (s : string) (model : value) :
  status_is s model = true ↔ lifecycle_status model = Some (VStr s).
Proof.
  unfold status_is.
  destruct (lifecycle_status model) as [[| | |t| |]|]; try (split; [discriminate|congruence]).
  rewrite String.eqb_eq. split; congruence.
Qed.

(** The test cannot raise on a well-formed summary. *)
Lemma is_active_summary_ok (model : value) :
  summary_ok model = true → is_active model = inr (status_is "ACTIVE" model).
Proof.
  unfold summary_ok. destruct model as [| | | | |d]; try discriminate.
  intros H. destruct (is_active (VDict d)) as [e|b] eqn:E.
  - exfalso. unfold is_active, py_get in E.
    destruct (d !! "modelLifecycle") as [[| | | | |lc]|]; cbn in *;
      try discriminate; rewrite ?andb_false_r in H; discriminate.
  - f_equal. by apply is_active_returns.
Qed.

(** The projection of lines 90-95 succeeds exactly on the dictionaries that
    carry both identifiers, and yields the normalized record. *)
Lemma enabled_model_normalizes (model : value) (em : gmap string value) :
  enabled_model model = inr em ↔ normalizes model em.
Proof.
  unfold enabled_model, normalizes, py_getitem, py_get. split.
  - destruct model as [| | | | |d]; try discriminate.
    destruct (d !! "modelId") as [model_id|] eqn:Hid; [|discriminate].
    destruct (d !! "providerName") as [provider|] eqn:Hp; [|discriminate].
    intros [= <-]. by exists d, model_id, provider.
  - intros (d & model_id & provider & -> & -> & -> & ->). reflexivity.
Qed.

Lemma enabled_model_summary_ok (model : value) :
  summary_ok model = true → ∃ em, enabled_model model = inr em.
Proof.
  unfold summary_ok. destruct model as [| | | | |d]; try discriminate.
  rewrite !andb_true_iff, !bool_decide_eq_true.
  intros [[[model_id Hid] [provider Hp]] _].
  eexists. apply enabled_model_normalizes. by exists d, model_id, provider.
Qed.

(** ** list_foundation_models: the loops *)

(** Whatever the entries are, if the inner loop returns, it has appended
    one record per ACTIVE entry, in order. *)
Lemma for_models_sound
    (models : list value) (acc result : list (gmap string value)) :
  for_models models acc = inr result →
  ∃ ems,
    result = acc ++ ems
    ∧ Forall2 (λ m em, enabled_model m = inr em)
              (List.filter (status_is "ACTIVE") models) ems.
Proof.
  revert acc. induction models as [|m models IH]; intros acc; cbn [for_models List.filter].
  - intros [= <-]. exists []. split; [by rewrite app_nil_r | constructor].
  - destruct (is_active m) as [e|b] eqn:Hact; [discriminate|].
    rewrite <- (is_active_returns m b Hact). destruct b.
    + destruct (enabled_model m) as [e|em] eqn:Hem; [discriminate|].
      intros (ems & -> & Hall)%IH.
      exists (em :: ems). split; [by rewrite <- app_assoc | by constructor].
    + apply IH.
Qed.

(** On well-formed summaries the inner loop does return. *)
Lemma for_models_total (models : list value) (acc : list (gmap string value)) :
  Forall (λ m, summary_ok m = true) models →
  ∃ result, for_models models acc = inr result.
Proof.
  intros Hok. revert acc.
  induction Hok as [|m models Hm _ IH]; intros acc; cbn [for_models]; [by eexists|].
  rewrite (is_active_summary_ok m Hm).
  destruct (status_is "ACTIVE" m); [|apply IH].
  destruct (enabled_model_summary_ok m Hm) as [em ->]. apply IH.
Qed.

Lemma for_pages_sound
    (s : page_stream) (acc result : list (gmap string value)) :
  for_pages s acc = inr result →
  ∃ entries ems,
    stream_entries s = Some entries
    ∧ result = acc ++ ems
    ∧ Forall2 (λ m em, enabled_model m = inr em)
              (List.filter (status_is "ACTIVE") entries) ems.
Proof.
  revert acc. induction s as [|page rest IH|e]; intros acc;
    cbn [for_pages stream_entries]; [| |discriminate].
  - intros [= <-]. exists [], []. split; [done|].
    split; [by rewrite app_nil_r | constructor].
  - destruct (py_getitem page "modelSummaries") as [e|summaries]; [discriminate|].
    destruct (py_iter summaries) as [e|models]; [discriminate|].
    destruct (for_models models acc) as [e|acc'] eqn:Hinner; [discriminate|].
    apply for_models_sound in Hinner as (ems1 & -> & Hall1).
    intros (entries & ems2 & -> & -> & Hall2)%IH.
    exists (models ++ entries), (ems1 ++ ems2).
    split; [done|]. split; [by rewrite <- app_assoc|].
    rewrite List.filter_app. by apply Forall2_app.
Qed.

Lemma page_models_Some (page : value) (models : list value) :
  page_models page = Some models →
  py_getitem page "modelSummaries" = inr (VList models).
Proof.
  unfold page_models, py_getitem.
  destruct page as [| | | | |d]; try discriminate.
  destruct (d !! "modelSummaries") as [[| | | |l|]|]; try discriminate.
  by intros [= ->].
Qed.

Lemma stream_entries_stream_of (pages : list value) (mss : list (list value)) :
  Forall2 (λ p ms, page_models p = Some ms) pages mss →
  stream_entries (stream_of pages) = Some (concat mss).
Proof.
  induction 1 as [|p ms pages mss Hp _ IH]; [reflexivity|].
  cbn [stream_of stream_entries concat].
  by rewrite (page_models_Some p ms Hp), IH.
Qed.

(** On pages of well-formed summaries the outer loop does return. *)
Lemma for_pages_total
    (pages : list value) (mss : list (list value)) (acc : list (gmap string value)) :
  Forall2 (λ p ms, page_models p = Some ms) pages mss →
  Forall (λ m, summary_ok m = true) (concat mss) →
  ∃ result, for_pages (stream_of pages) acc = inr result.
Proof.
  intros Hpages. revert acc.
  induction Hpages as [|p ms pages mss Hp _ IH]; intros acc Hok; [by eexists|].
  cbn [concat] in Hok. apply Forall_app in Hok as [Hms Hrest].
  cbn [stream_of for_pages]. rewrite (page_models_Some p ms Hp). cbn [py_iter].
  destruct (for_models_total ms acc Hms) as [acc' ->]. by apply IH.
Qed.

Lemma for_pages_summary_ok
    (pages : list value) (mss : list (list value)) (acc : list (gmap string value)) :
  Forall2 (λ p ms, page_models p = Some ms) pages mss →
  Forall (λ m, summary_ok m = true) (concat mss) →
  ∃ ems,
    for_pages (stream_of pages) acc = inr (acc ++ ems)
    ∧ Forall2 (λ m em, enabled_model m = inr em)
              (List.filter (status_is "ACTIVE") (concat mss)) ems.
Proof.
  intros Hpages Hok.
  destruct (for_pages_total pages mss acc Hpages Hok) as [result Hrun].
  destruct (for_pages_sound _ _ _ Hrun) as (entries & ems & Hentries & -> & Hall).
  rewrite (stream_entries_stream_of pages mss Hpages) in Hentries.
  injection Hentries as <-. by exists ems.
Qed.

(** ** list_foundation_models: the [try] and its handlers *)

Lemma list_foundation_models_body_outcome (w : Externals) :
  outcome (list_foundation_models_body w) =
  match paginator_pages w with
  | inr s => for_pages s []
  | inl e => inl e
  end.
Proof.
  unfold list_foundation_models_body, paginator_pages, outcome.
  destruct (get_bedrock_client w None) as [l [e|client]]; cbn; [reflexivity|].
  destruct (get_paginator client "list_foundation_models") as [e|paginator]; reflexivity.
Qed.

(** A result of the body is returned as it is, with nothing logged by the
    inventory itself. *)
Lemma list_foundation_models_returns (w : Externals) (result : list (gmap string value)) :
  outcome (list_foundation_models w) = inr result ↔
  outcome (list_foundation_models_body w) = inr result.
Proof.
  unfold list_foundation_models, try_except_ClientError_Exception, outcome.
  destruct (list_foundation_models_body w) as [l [e|r]]; [|reflexivity].
  split; [|discriminate].
  destruct (isinstance_ClientError e).
  - cbn. repeat (case_match; cbn in *; simplify_eq); discriminate.
  - destruct (isinstance_Exception e); cbn; discriminate.
Qed.

(** ** Model Inventory: the claims *)

(** C2: the inventory returns a record for an entry exactly when the
    entry's lifecycle status is the string "ACTIVE".  Whenever it returns,
    the paginator ended normally and the result is, in order, the records
    of the ACTIVE entries of its pages; when the paginator delivers pages
    of model summaries it does return, with one record per ACTIVE entry and
    none for any other; and for the stub paginator emitting m1 (ACTIVE) and
    m2 (LEGACY) the result is exactly one record, with modelId "m1". *)
Theorem list_foundation_models_keeps_ACTIVE :
  (∀ (w : Externals) (result : list (gmap string value)),
     outcome (list_foundation_models w) = inr result →
     ∃ s entries,
       paginator_pages w = inr s
       ∧ stream_entries s = Some entries
       ∧ Forall2 (λ m em, enabled_model m = inr em)
                 (List.filter (status_is "ACTIVE") entries) result)
  ∧ (∀ (w : Externals) (pages : list value) (mss : list (list value)),
       paginator_pages w = inr (stream_of pages) →
       Forall2 (λ p ms, page_models p = Some ms) pages mss →
       Forall (λ m, summary_ok m = true) (concat mss) →
       ∃ result,
         outcome (list_foundation_models w) = inr result
         ∧ Forall2 (λ m em, enabled_model m = inr em)
                   (List.filter (status_is "ACTIVE") (concat mss)) result
         ∧ (∀ m, m ∈ List.filter (status_is "ACTIVE") (concat mss) ↔
                 m ∈ concat mss ∧ lifecycle_status m = Some (VStr "ACTIVE")))
  ∧ (∀ w : Externals,
       paginator_pages w = inr (stream_of stub_pages) →
       ∃ em,
         outcome (list_foundation_models w) = inr [em]
         ∧ em !! "modelId" = Some (VStr "m1")).
Proof.
  split; [|split].
  - intros w result Hrun.
    apply list_foundation_models_returns in Hrun.
    rewrite list_foundation_models_body_outcome in Hrun.
    destruct (paginator_pages w) as [e|s]; [discriminate|].
    apply for_pages_sound in Hrun as (entries & ems & Hentries & -> & Hall).
    by exists s, entries.
  - intros w pages mss Hw Hpages Hok.
    destruct (for_pages_summary_ok pages mss [] Hpages Hok) as (result & Hrun & Hall).
    exists result. split; [|split].
    + apply list_foundation_models_returns.
      by rewrite list_foundation_models_body_outcome, Hw, Hrun.
    + exact Hall.
    + intros m. rewrite !list_elem_of_In, List.filter_In, status_is_true.
      reflexivity.
  - intros w Hw. exists (sample_enabled "m1"). split; [|reflexivity].
    apply list_foundation_models_returns.
    rewrite list_foundation_models_body_outcome, Hw. reflexivity.
Qed.

Lemma list_foundation_models_keeps_ACTIVE_witness :
  ∃ result,
    outcome (list_foundation_models world_stub) = inr result
    ∧ Forall2 (λ m em, enabled_model m = inr em)
        (List.filter (status_is "ACTIVE")
           (concat [[sample_model "m1" "ACTIVE"; sample_model "m2" "LEGACY"]]))
        result
    ∧ (∀ m, m ∈ List.filter (status_is "ACTIVE")
                  (concat [[sample_model "m1" "ACTIVE"; sample_model "m2" "LEGACY"]]) ↔
            m ∈ concat [[sample_model "m1" "ACTIVE"; sample_model "m2" "LEGACY"]]
            ∧ lifecycle_status m = Some (VStr "ACTIVE")).
Proof.
  apply (proj1 (proj2 list_foundation_models_keeps_ACTIVE) world_stub stub_pages).
  - reflexivity.
  - repeat constructor.
  - repeat constructor.
Defined.

(** A record produced from an entry that omits a modality field has the
    empty list there. *)
Lemma normalizes_default_modalities (d : gmap string value) (em : gmap string value) :
  normalizes (VDict d) em →
  (d !! "inputModalities" = None → em !! "inputModalities" = Some (VList []))
  ∧ (d !! "outputModalities" = None → em !! "outputModalities" = Some (VList [])).
Proof.
  intros (d' & model_id & provider & [= <-] & _ & _ & ->).
  split; intros ->; reflexivity.
Qed.

(** C5: the records come out in the paginator's order -- page after page,
    and inside a page in the order of its entries -- one per ACTIVE entry;
    each is the normalized record of its entry, with the empty list for a
    modality field the entry omits.  For two pages (one active model; then
    one active and one inactive model) the result has exactly two records,
    in that order. *)
Theorem list_foundation_models_pagination_order :
  (∀ (w : Externals) (pages : list value) (mss : list (list value)),
     paginator_pages w = inr (stream_of pages) →
     Forall2 (λ p ms, page_models p = Some ms) pages mss →
     Forall (λ m, summary_ok m = true) (concat mss) →
     ∃ result,
       outcome (list_foundation_models w) = inr result
       ∧ Forall2 normalizes
                 (concat (List.filter (status_is "ACTIVE") <$> mss)) result)
  ∧ (∀ w : Externals,
       paginator_pages w = inr (stream_of two_pages) →
       outcome (list_foundation_models w) =
       inr [sample_enabled "a"; sample_enabled "b"]).
Proof.
  split.
  - intros w pages mss Hw Hpages Hok.
    destruct (for_pages_summary_ok pages mss [] Hpages Hok) as (result & Hrun & Hall).
    exists result. split.
    + apply list_foundation_models_returns.
      by rewrite list_foundation_models_body_outcome, Hw, Hrun.
    + replace (concat (List.filter (status_is "ACTIVE") <$> mss))
        with (List.filter (status_is "ACTIVE") (concat mss)).
      * eapply Forall2_impl; [exact Hall|].
        intros m em. apply enabled_model_normalizes.
      * clear. induction mss as [|ms mss IH]; [reflexivity|].
        cbn. by rewrite List.filter_app, IH.
  - intros w Hw.
    apply list_foundation_models_returns.
    rewrite list_foundation_models_body_outcome, Hw. reflexivity.
Qed.

Lemma list_foundation_models_pagination_order_witness :
  ∃ result,
    outcome (list_foundation_models world_two_pages) = inr result
    ∧ Forall2 normalizes
        (concat (List.filter (status_is "ACTIVE") <$>
                   [[sample_model "a" "ACTIVE"];
                    [sample_model "b" "ACTIVE"; sample_model "c" "LEGACY"]]))
        result.
Proof.
  apply (proj1 list_foundation_models_pagination_order world_two_pages two_pages).
  - reflexivity.
  - repeat constructor.
  - repeat constructor.
Defined.




(** C4: an entry without [modelLifecycle], or whose [modelLifecycle] has no
    [status], is skipped: the test of line 89 is [False], nothing is raised,
    and the loop goes on with the accumulator unchanged. *)
Theorem missing_lifecycle_is_skipped
    (d : gmap string value) (rest : list value) (acc : list (gmap string value)) :
  d !! "modelLifecycle" = None
  ∨ (∃ lc, d !! "modelLifecycle" = Some (VDict lc) ∧ lc !! "status" = None) →
  is_active (VDict d) = inr false
  ∧ for_models (VDict d :: rest) acc = for_models rest acc.
Proof.
  intros H.
  assert (is_active (VDict d) = inr false) as Hact.
  { unfold is_active, py_get.
    destruct H as [-> | (lc & -> & Hst)]; cbn; [reflexivity|].
    by rewrite Hst. }
  split; [exact Hact|]. cbn [for_models]. by rewrite Hact.
Qed.

Lemma missing_lifecycle_is_skipped_witness :
  (is_active (VDict model_without_lifecycle) = inr false
   ∧ for_models [VDict model_without_lifecycle] [] = for_models [] [])
  ∧ (is_active (VDict model_without_status) = inr false
     ∧ for_models [VDict model_without_status] [] = for_models [] []).
Proof.
  split.
  - apply (missing_lifecycle_is_skipped model_without_lifecycle [] []).
    left. reflexivity.
  - apply (missing_lifecycle_is_skipped model_without_status [] []).
    right. exists ∅. split; reflexivity.
Defined.

(** A whole listing over such entries returns the empty list. *)
Example list_foundation_models_without_lifecycle :
  outcome (list_foundation_models world_without_lifecycle) = inr [].
Proof. reflexivity. Qed.

(** A [modelLifecycle] that is present but is not a dictionary has no
    [.get]: the test raises. *)
Example lifecycle_None_raises :
  is_active (dict [("modelLifecycle", VNone)]) = inl (AttributeError VNone "get").
Proof. reflexivity. Qed.

(** ** Failures *)

(** An entry on which the loop body raises makes the inner loop raise,
    wherever the entry stands in the page. *)
Lemma for_models_raises (model : value) (models : list value) :
  (∀ acc, ∃ e, for_models [model] acc = inl e) →
  model ∈ models →
  ∀ acc, ∃ e, for_models models acc = inl e.
Proof.
  intros Hbad Hin. induction Hin as [model models | model m' models _ IH]; intros acc.
  - destruct (Hbad acc) as [e He]. cbn [for_models] in *.
    destruct (is_active model) as [e'|[]]; [by eexists| |discriminate].
    destruct (enabled_model model) as [e'|em]; [by eexists|discriminate].
  - cbn [for_models].
    destruct (is_active m') as [e'|[]]; [by eexists| |by apply IH].
    destruct (enabled_model m') as [e'|em]; [by eexists|by apply IH].
Qed.

(** A page on which the inner loop raises makes the outer loop raise,
    wherever the page stands in the stream. *)
Lemma for_pages_raises (s : page_stream) (page summaries : value) (models : list value) :
  page ∈ stream_pages s →
  py_getitem page "modelSummaries" = inr summaries →
  py_iter summaries = inr models →
  (∀ acc, ∃ e, for_models models acc = inl e) →
  ∀ acc, ∃ e, for_pages s acc = inl e.
Proof.
  intros Hin Hget Hiter Hbad.
  induction s as [|p rest IH|e]; cbn [stream_pages] in Hin.
  - by apply elem_of_nil in Hin.
  - intros acc. cbn [for_pages].
    apply elem_of_cons in Hin as [<- | Hin].
    + rewrite Hget, Hiter. destruct (Hbad acc) as [e ->]. by eexists.
    + destruct (py_getitem p "modelSummaries") as [e|v]; [by eexists|].
      destruct (py_iter v) as [e|ms]; [by eexists|].
      destruct (for_models ms acc) as [e|acc']; [by eexists|].
      by apply IH.
  - by apply elem_of_nil in Hin.
Qed.

(** The inventory never turns a failure of its body into a result. *)
Lemma list_foundation_models_fails (w : Externals) (e : exn) :
  outcome (list_foundation_models_body w) = inl e →
  ∃ e', outcome (list_foundation_models w) = inl e'.
Proof.
  intros Hbody.
  destruct (outcome (list_foundation_models w)) as [e'|result] eqn:Hrun; [by eexists|].
  apply list_foundation_models_returns in Hrun. congruence.
Qed.

(** C10: an entry whose status is "ACTIVE" but which lacks [modelId] or
    [providerName] makes the subscript raise [KeyError] ([modelId] is looked
    up first); no record is emitted for it, and a listing call whose
    paginator delivers such an entry raises instead of returning. *)
Theorem active_entry_without_identifiers_fails (d : gmap string value) :
  lifecycle_status (VDict d) = Some (VStr "ACTIVE") →
  d !! "modelId" = None ∨ d !! "providerName" = None →
  (∀ rest acc,
     for_models (VDict d :: rest) acc =
     inl (KeyError (match d !! "modelId" with
                     | Some _ => "providerName"
                     | None => "modelId"
                     end)))
  ∧ (∀ (w : Externals) (s : page_stream) (page summaries : value) (models : list value),
       paginator_pages w = inr s →
       page ∈ stream_pages s →
       py_getitem page "modelSummaries" = inr summaries →
       py_iter summaries = inr models →
       VDict d ∈ models →
       ∃ e, outcome (list_foundation_models w) = inl e).
Proof.
  intros Hst Hmiss.
  assert (is_active (VDict d) = inr true) as Hact.
  { revert Hst. unfold is_active, lifecycle_status, py_get.
    destruct (d !! "modelLifecycle") as [[| | | | |lc]|]; try discriminate.
    cbn. by intros ->. }
  assert (∀ rest acc,
            for_models (VDict d :: rest) acc =
            inl (KeyError (match d !! "modelId" with
                     | Some _ => "providerName"
                     | None => "modelId"
                     end)))
    as Hraise.
  { intros rest acc. cbn [for_models]. rewrite Hact.
    unfold enabled_model, py_getitem.
    destruct (d !! "modelId") as [model_id|]; [|reflexivity].
    destruct Hmiss as [Hid|Hp]; [discriminate | by rewrite Hp]. }
  split; [exact Hraise|].
  intros w s page summaries models Hw Hpage Hget Hiter Hin.
  destruct (for_pages_raises s page summaries models Hpage Hget Hiter) with (acc := @nil (gmap string value))
    as [e He].
  { apply (for_models_raises (VDict d)); [|exact Hin].
    intros acc. rewrite Hraise. by eexists. }
  apply (list_foundation_models_fails w e).
  by rewrite list_foundation_models_body_outcome, Hw.
Qed.

Lemma active_entry_without_identifiers_fails_witness :
  for_models [VDict model_without_id] [] = inl (KeyError "modelId")
  ∧ ∃ e, outcome (list_foundation_models world_without_id) = inl e.
Proof.
  assert (lifecycle_status (VDict model_without_id) = Some (VStr "ACTIVE")) as Hst
    by reflexivity.
  assert (model_without_id !! "modelId" = None ∨ model_without_id !! "providerName" = None)
    as Hmiss by (left; reflexivity).
  split.
  - apply (proj1 (active_entry_without_identifiers_fails model_without_id Hst Hmiss) [] []).
  - apply (proj2 (active_entry_without_identifiers_fails model_without_id Hst Hmiss)
             world_without_id
             (stream_of [sample_page [sample_model "m1" "ACTIVE"; VDict model_without_id]])
             (sample_page [sample_model "m1" "ACTIVE"; VDict model_without_id])
             (VList [sample_model "m1" "ACTIVE"; VDict model_without_id])
             [sample_model "m1" "ACTIVE"; VDict model_without_id]).
    + reflexivity.
    + apply list_elem_of_here.
    + reflexivity.
    + reflexivity.
    + apply list_elem_of_further, list_elem_of_here.
Defined.

(** The record for m1 had been appended when the second entry raised; the
    call returns nothing of it. *)
Example partial_page_is_dropped :
  outcome (list_foundation_models world_without_id) = inl (KeyError "modelId").
Proof. reflexivity. Qed.

(** When the paginator raises after some well-formed pages, the body of
    the inventory raises that exception: the records gathered so far are
    lost. *)
Lemma for_pages_stream_failing
    (pages : list value) (mss : list (list value)) (e : exn)
    (acc : list (gmap string value)) :
  Forall2 (λ p ms, page_models p = Some ms) pages mss →
  Forall (λ m, summary_ok m = true) (concat mss) →
  for_pages (stream_failing pages e) acc = inl e.
Proof.
  intros Hpages. revert acc.
  induction Hpages as [|p ms pages mss Hp _ IH]; intros acc Hok; [reflexivity|].
  cbn [concat] in Hok. apply Forall_app in Hok as [Hms Hrest].
  cbn [stream_failing for_pages]. rewrite (page_models_Some p ms Hp). cbn [py_iter].
  destruct (for_models_total ms acc Hms) as [acc' ->]. by apply IH.
Qed.




(** The throttled listing, run: the error comes back unchanged, the log
    ends with its code and message, and the record already gathered for m1
    is not returned. *)
Example list_foundation_models_throttled :
  structured throttling (VStr "ThrottlingException") (VStr "Rate exceeded")
  ∧ outcome (list_foundation_models world_throttled) = inl throttling
  ∧ last (logged (list_foundation_models world_throttled)) =
    Some (mkLog ERROR "AWS Error: ThrottlingException - Rate exceeded").
Proof.
  split; [|split; reflexivity].
  eexists _, _, _. repeat split; reflexivity.
Qed.

(** A [ClientError] whose response lacks the fields: the handler's own
    subscript raises, and that [KeyError] replaces the original error. *)
Example list_foundation_models_unstructured_error :
  outcome (list_foundation_models
             (sample_world (inr "10.0.0.1")
                (PagesRaise (ClientError (dict []) "ListFoundationModels"))))
  = inl (KeyError "Error").
Proof. reflexivity. Qed.

(** * Further properties *)

(** ** The classifier on arbitrary text *)

Lemma startswith_inv (s p : string) :
  startswith s p = true → ∃ t, s = p +:+ t.
Proof.
  unfold startswith. revert s.
  induction p as [|a p IH]; intros s H.
  - by exists s.
  - destruct s as [|b s]; [discriminate|].
    cbn in H. destruct (ascii_dec a b) as [->|]; [|discriminate].
    destruct (IH s H) as [t ->]. by exists t.
Qed.

Lemma split_not_nil (s : string) (sep : ascii) : split s sep ≠ [].
Proof.
  induction s as [|c s IH]; cbn; [discriminate|].
  destruct (Ascii.eqb c sep); [discriminate|].
  destruct (split s sep); [contradiction | discriminate].
Qed.

(** A text that starts with "172." always has a second field. *)
Lemma split_second_field (ip : string) :
  startswith ip "172." = true → ∃ field, split ip "." !! 1%nat = Some field.
Proof.
  intros [t ->]%startswith_inv.
  destruct (split t ".") as [|field rest] eqn:E; [by apply split_not_nil in E|].
  exists field. simpl. change ("" +:+ t) with t. by rewrite E.
Qed.

Lemma startswith_172_excludes (ip : string) :
  startswith ip "172." = true →
  startswith ip "10." = false ∧ startswith ip "192.0." = false.
Proof.
  intros [t ->]%startswith_inv. split; reflexivity.
Qed.

(** X1: on the decimal text of an IPv4 address a.b.c.d (octets up to 255)
    the classifier returns, and its verdict is true exactly for the blocks
    10.0.0.0/8, 172.16.0.0/12 and 192.0.0.0/16. *)
Theorem is_private_ip_cidr_blocks (a b c d : N) :
  (a <= 255)%N → (b <= 255)%N → (c <= 255)%N → (d <= 255)%N →
  ∃ private : bool,
    is_private_ip (dotted_quad a b c d) = inr private
    ∧ (private = true ↔
         a = 10%N ∨ (a = 172%N ∧ (16 <= b <= 31)%N) ∨ (a = 192%N ∧ b = 0%N)).
Proof.
  intros _ Hb _ _.
  eexists. split; [by apply is_private_ip_octets|].
  rewrite !orb_true_iff, !andb_true_iff, !N.eqb_eq, !N.leb_le. tauto.
Qed.

Lemma is_private_ip_cidr_blocks_witness :
  ∃ private : bool,
    is_private_ip (dotted_quad 172 31 255 254) = inr private
    ∧ (private = true ↔
         172%N = 10%N ∨ (172%N = 172%N ∧ (16 <= 31 <= 31)%N) ∨ (172%N = 192%N ∧ 31%N = 0%N)).
Proof.
  apply (is_private_ip_cidr_blocks 172 31 255 254); lia.
Defined.

(** Past the interpreter's digit cap [int()] refuses to convert, so a
    second field of 4301 digits makes the classifier raise. *)
Example is_private_ip_digit_cap :
  let field := py_mul "1" 4301 in
  is_private_ip ("172." +:+ field +:+ ".0.1") = inl (ValueError field).
Proof. vm_compute. reflexivity. Qed.

(** X2: on any text at all the classifier either returns or raises
    [ValueError]; the subscript [[1]] cannot fail, because a text that
    starts with "172." has a second dot-separated field.  For such a text
    the verdict is decided by [int()] of that field alone; for any other
    text it is decided by the prefixes "10." and "192.0.". *)
Theorem is_private_ip_any_text (ip : string) :
  (startswith ip "172." = false →
   is_private_ip ip = inr (startswith ip "10." || startswith ip "192.0."))
  ∧ (startswith ip "172." = true →
     ∃ field,
       split ip "." !! 1%nat = Some field
       ∧ is_private_ip ip =
         match py_int field with
         | inr n => inr ((16 <=? n) && (n <=? 31))
         | inl _ => inl (ValueError field)
         end).
Proof.
  split; intros H172.
  - unfold is_private_ip. rewrite H172. cbn. by rewrite orb_false_r.
  - destruct (split_second_field ip H172) as [field Hfield].
    destruct (startswith_172_excludes ip H172) as [H10 H192].
    exists field. split; [exact Hfield|].
    unfold is_private_ip, list_getitem. rewrite H172, Hfield, H10, H192.
    destruct (py_int field) as [e|n] eqn:Hint.
    + by rewrite (py_int_raises field e Hint).
    + cbn. by rewrite orb_false_r.
Qed.

(** [int()] is lenient about the field: a sign, an underscore and
    surrounding blanks are accepted. *)
Example is_private_ip_lenient_field :
  is_private_ip "172. +1_6 .0.1" = inr true.
Proof. reflexivity. Qed.

(** A text need not be an address to be classified as private. *)
Example is_private_ip_not_an_address :
  is_private_ip "10.example.com" = inr true.
Proof. reflexivity. Qed.

(** ** The log of the check and of the factory *)

Lemma M_eta {A} (m : M A) : m = (logged m, outcome m).
Proof. by destruct m. Qed.

(** X3: whenever the resolver answers or fails with an [Exception], the
    connectivity check hands exactly one record to the logger, and that
    record is at level INFO exactly when the check returns [True]. *)
Theorem verify_private_connection_one_record (w : Externals) :
  (∀ e, socket_gethostbyname w bedrock_endpoint = inl e →
        isinstance_Exception e = true) →
  ∃ lv msg b,
    verify_private_connection w = ([mkLog lv msg], inr b)
    ∧ (lv = INFO ↔ b = true).
Proof.
  intros Hexc.
  destruct (socket_gethostbyname w bedrock_endpoint) as [e|ip] eqn:Hres.
  - rewrite (verify_private_connection_failed w e Hres (Hexc e eq_refl)).
    eexists _, _, _. split; [reflexivity|]. split; discriminate.
  - unfold verify_private_connection.
    change "bedrock.us-east-1.amazonaws.com" with bedrock_endpoint.
    rewrite Hres. cbn -[isinstance_Exception is_private_ip String.append].
    destruct (is_private_ip ip) as [e|[]] eqn:E;
      cbn -[isinstance_Exception String.append].
    + rewrite (is_private_ip_raises _ _ E).
      eexists _, _, _. split; [reflexivity|]. split; discriminate.
    + eexists _, _, _. split; [reflexivity|]. split; reflexivity.
    + eexists _, _, _. split; [reflexivity|]. split; discriminate.
Qed.

Lemma verify_private_connection_one_record_witness :
  ∃ lv msg b,
    verify_private_connection world_private = ([mkLog lv msg], inr b)
    ∧ (lv = INFO ↔ b = true).
Proof.
  apply (verify_private_connection_one_record world_private).
  intros e He. discriminate He.
Defined.

(** X4: once the check has returned [b], a run of the factory is fully
    determined: its log is the check's log, then one WARNING record if [b]
    is [False], then one ERROR record if the SDK raised an [Exception];
    its outcome is the SDK's answer, an exception of the SDK included. *)
Theorem get_bedrock_client_run
    (w : Externals) (region : option string) (l : list LogRecord) (b : bool) :
  verify_private_connection w = (l, inr b) →
  get_bedrock_client w region =
  (l ++ (if b then []
         else [mkLog WARNING "Traffic might be flowing over public internet!"])
     ++ match sdk_client w (default "us-east-1" region) with
        | inl e =>
            if isinstance_Exception e
            then [mkLog ERROR ("Error creating Bedrock client: " +:+ str_exn w e)]
            else []
        | inr _ => []
        end,
   sdk_client w (default "us-east-1" region)).
Proof.
  intros Hcheck. rewrite (M_eta (get_bedrock_client w region)).
  rewrite (get_bedrock_client_logged w region l b Hcheck).
  rewrite get_bedrock_client_outcome. unfold outcome. by rewrite Hcheck.
Qed.

Lemma get_bedrock_client_run_witness :
  get_bedrock_client world_no_credentials (Some "eu-west-1") =
  (logged (verify_private_connection world_no_credentials)
     ++ [mkLog WARNING "Traffic might be flowing over public internet!"]
     ++ [mkLog ERROR "Error creating Bedrock client: NoCredentialsError"],
   inl no_credentials).
Proof.
  apply (get_bedrock_client_run world_no_credentials (Some "eu-west-1")
           (logged (verify_private_connection world_no_credentials)) false).
  reflexivity.
Defined.

(** ** The inventory as a whole *)

Lemma py_getitem_raises (obj : value) (key : string) (e : exn) :
  py_getitem obj key = inl e → e = KeyError key ∨ e = TypeError obj.
Proof.
  unfold py_getitem. destruct obj as [| | | | |d]; try (intros [= <-]; by right).
  destruct (d !! key); [discriminate|]. intros [= <-]. by left.
Qed.

(** A result of the body is returned with the body's log; an exception of
    the body leaves as [reraised] says. *)
Lemma list_foundation_models_run
    (w : Externals) (l : list LogRecord) (r : exn + list (gmap string value)) :
  list_foundation_models_body w = (l, r) →
  match r with
  | inr result => list_foundation_models w = (l, inr result)
  | inl e => outcome (list_foundation_models w) = inl (reraised e)
  end.
Proof.
  intros Hbody. unfold list_foundation_models, try_except_ClientError_Exception.
  rewrite Hbody. destruct r as [e|result]; [|reflexivity].
  unfold outcome, reraised.
  destruct e as [| | | | | |response op| |]; try reflexivity.
  cbn -[String.append py_str].
  destruct (py_getitem response "Error") as [e1|err]; [reflexivity|].
  cbn -[String.append py_str].
  destruct (py_getitem err "Code") as [e2|code]; [reflexivity|].
  cbn -[String.append py_str].
  destruct (py_getitem err "Message") as [e3|message]; reflexivity.
Qed.

(** X5: a [ClientError] whose response lacks ['Error'], ['Code'] or
    ['Message'] is not re-raised: the handler's own subscript fails first,
    so the caller receives that [KeyError] or [TypeError] instead of the
    service error, and the inventory logs nothing about it. *)
Theorem list_foundation_models_unstructured_ClientError
    (w : Externals) (l : list LogRecord) (response : value) (op : string) :
  list_foundation_models_body w = (l, inl (ClientError response op)) →
  (∀ code message, ¬ structured (ClientError response op) code message) →
  ∃ e',
    list_foundation_models w = (l, inl e')
    ∧ isinstance_ClientError e' = false
    ∧ ((∃ key, e' = KeyError key) ∨ (∃ obj, e' = TypeError obj)).
Proof.
  intros Hbody Hnot.
  unfold list_foundation_models, try_except_ClientError_Exception.
  rewrite Hbody. cbn -[String.append py_str].
  destruct (py_getitem response "Error") as [e1|err] eqn:Herr.
  { exists e1. rewrite app_nil_r.
    destruct (py_getitem_raises _ _ _ Herr) as [-> | ->]; eauto 6. }
  cbn -[String.append py_str].
  destruct (py_getitem err "Code") as [e2|code] eqn:Hcode.
  { exists e2. rewrite app_nil_r.
    destruct (py_getitem_raises _ _ _ Hcode) as [-> | ->]; eauto 6. }
  cbn -[String.append py_str].
  destruct (py_getitem err "Message") as [e3|message] eqn:Hmsg.
  { exists e3. rewrite app_nil_r.
    destruct (py_getitem_raises _ _ _ Hmsg) as [-> | ->]; eauto 6. }
  exfalso. apply (Hnot code message). by exists response, op, err.
Qed.

Lemma list_foundation_models_unstructured_ClientError_witness :
  ∃ e',
    list_foundation_models world_bare_client_error =
    (logged (list_foundation_models_body world_bare_client_error), inl e')
    ∧ isinstance_ClientError e' = false
    ∧ ((∃ key, e' = KeyError key) ∨ (∃ obj, e' = TypeError obj)).
Proof.
  apply (list_foundation_models_unstructured_ClientError world_bare_client_error _
           (dict [("ResponseMetadata", dict [])]) "ListFoundationModels").
  - reflexivity.
  - intros code message (response & op & err & Heq & Herr & _).
    injection Heq as <- _. discriminate Herr.
Defined.

Lemma list_foundation_models_log_on_success
    (w : Externals) (result : list (gmap string value)) :
  outcome (list_foundation_models w) = inr result →
  list_foundation_models w = (logged (get_bedrock_client w None), inr result).
Proof.
  intros Hrun. apply list_foundation_models_returns in Hrun.
  pose proof (list_foundation_models_run w _ _ (M_eta (list_foundation_models_body w)))
    as Hfull.
  rewrite Hrun in Hfull. rewrite Hfull. f_equal.
  clear. unfold list_foundation_models_body, logged.
  destruct (get_bedrock_client w None) as [l [e|client]]; cbn; [reflexivity|].
  destruct (get_paginator client "list_foundation_models") as [e|paginator]; cbn;
    by rewrite ?app_nil_r.
Qed.

(** X6: when the inventory returns a list, it has logged nothing itself:
    its log is the log of the factory. *)
Theorem list_foundation_models_silent_on_success
    (w : Externals) (result : list (gmap string value)) :
  outcome (list_foundation_models w) = inr result →
  logged (list_foundation_models w) = logged (get_bedrock_client w None).
Proof.
  intros Hrun. by rewrite (list_foundation_models_log_on_success w result Hrun).
Qed.

Lemma list_foundation_models_silent_on_success_witness :
  logged (list_foundation_models world_two_pages) =
  logged (get_bedrock_client world_two_pages None).
Proof.
  apply (list_foundation_models_silent_on_success world_two_pages
           [sample_enabled "a"; sample_enabled "b"]).
  reflexivity.
Defined.

Lemma for_pages_prepend
    (pages : list value) (mss : list (list value)) (s : page_stream)
    (acc : list (gmap string value)) :
  Forall2 (λ p ms, page_models p = Some ms) pages mss →
  Forall (λ m, summary_ok m = true) (concat mss) →
  ∃ acc', for_pages (stream_prepend pages s) acc = for_pages s acc'.
Proof.
  intros Hpages. revert acc.
  induction Hpages as [|p ms pages mss Hp _ IH]; intros acc Hok; [by eexists|].
  cbn [concat] in Hok. apply Forall_app in Hok as [Hms Hrest].
  cbn [stream_prepend for_pages]. rewrite (page_models_Some p ms Hp). cbn [py_iter].
  destruct (for_models_total ms acc Hms) as [acc' ->]. by apply IH.
Qed.

(** X7: a page that has no ['modelSummaries'] key makes the whole listing
    fail with [KeyError], whatever was gathered from the pages before it
    and whatever pages would follow. *)
Theorem page_without_summaries_fails
    (w : Externals) (pages : list value) (mss : list (list value))
    (d : gmap string value) (rest : page_stream) :
  paginator_pages w = inr (stream_prepend pages (PagesNext (VDict d) rest)) →
  Forall2 (λ p ms, page_models p = Some ms) pages mss →
  Forall (λ m, summary_ok m = true) (concat mss) →
  d !! "modelSummaries" = None →
  outcome (list_foundation_models w) = inl (KeyError "modelSummaries").
Proof.
  intros Hw Hpages Hok Hmiss.
  pose proof (list_foundation_models_run w _ _ (M_eta (list_foundation_models_body w)))
    as Hfull.
  rewrite list_foundation_models_body_outcome, Hw in Hfull.
  destruct (for_pages_prepend pages mss (PagesNext (VDict d) rest) [] Hpages Hok)
    as [acc' Hrun].
  rewrite Hrun in Hfull. cbn [for_pages py_getitem] in Hfull.
  by rewrite Hmiss in Hfull.
Qed.

Lemma page_without_summaries_fails_witness :
  outcome (list_foundation_models world_page_without_summaries) =
  inl (KeyError "modelSummaries").
Proof.
  apply (page_without_summaries_fails world_page_without_summaries stub_pages
           [[sample_model "m1" "ACTIVE"; sample_model "m2" "LEGACY"]]
           (list_to_map [("nextToken", VStr "t")]) (stream_of two_pages)).
  - reflexivity.
  - repeat constructor.
  - repeat constructor.
  - reflexivity.
Defined.

(** ** main: the report loop *)

Lemma join_items_raises (sep : string) (items : list value) (e : exn) :
  join_items sep items = inl e → ∃ item, item ∈ items ∧ e = TypeError item.
Proof.
  induction items as [|item items IH]; cbn [join_items]; [discriminate|].
  destruct item as [| | |s| |];
    try (intros [= <-]; eexists; split; [apply list_elem_of_here | reflexivity]).
  destruct (join_items sep items) as [e'|rest]; [|discriminate].
  intros [= <-]. destruct (IH eq_refl) as (item & Hin & ->).
  exists item. split; [by apply list_elem_of_further | reflexivity].
Qed.

Lemma py_join_raises
    (key_order : gmap string value -> list string) (sep : string) (obj : value) (e : exn) :
  py_join key_order sep obj = inl e → ∃ v, e = TypeError v.
Proof.
  unfold py_join. destruct obj as [| | | |l|d]; try (intros [= <-]; by eexists);
    try discriminate.
  intros (item & _ & ->)%join_items_raises. by eexists.
Qed.

(** One model: five INFO records when the record is printable; otherwise
    fewer, and a [KeyError] for an absent key or a [TypeError] from
    [join]. *)
Lemma report_model_cases
    (key_order : gmap string value -> list string) (w : Externals)
    (model : gmap string value) :
  (printable key_order model
   ∧ ∃ l, report_model key_order w model = (l, inr tt)
          ∧ length l = 5%nat
          ∧ Forall (λ r, levelname r = INFO) l)
  ∨ (¬ printable key_order model
     ∧ ∃ l e, report_model key_order w model = (l, inl e)
              ∧ Forall (λ r, levelname r = INFO) l
              ∧ ((∃ key, e = KeyError key ∧ model !! key = None
                         ∧ key ∈ ["modelId"; "provider";
                                  "inputModalities"; "outputModalities"])
                 ∨ (∃ v, e = TypeError v))).
Proof.
  assert (∀ (l : list LogRecord) (key : string),
            Forall (λ r, levelname r = INFO) l →
            model !! key = None →
            key ∈ ["modelId"; "provider"; "inputModalities"; "outputModalities"] →
            ∃ l' e, (l, @inl exn unit (KeyError key)) = (l', inl e)
                    ∧ Forall (λ r, levelname r = INFO) l'
                    ∧ ((∃ key', e = KeyError key' ∧ model !! key' = None
                                ∧ key' ∈ ["modelId"; "provider";
                                          "inputModalities"; "outputModalities"])
                       ∨ (∃ v, e = TypeError v))) as Hkey.
  { intros l key Hl Hk Hin. exists l, (KeyError key).
    split; [reflexivity|]. split; [exact Hl|]. left. by exists key. }
  unfold report_model, printable, py_getitem.
  destruct (model !! "modelId") as [model_id|] eqn:Hid;
    cbn -[String.append py_str py_join py_mul].
  2: { right. split; [by intros ([? [=]] & _)|].
       apply Hkey; [constructor | done | set_solver]. }
  destruct (model !! "provider") as [provider|] eqn:Hp;
    cbn -[String.append py_str py_join py_mul].
  2: { right. split; [by intros (_ & [? [=]] & _)|].
       apply Hkey; [repeat constructor | done | set_solver]. }
  destruct (model !! "inputModalities") as [input|] eqn:Hin;
    cbn -[String.append py_str py_join py_mul].
  2: { right. split; [by intros (_ & _ & (? & ? & [=] & _) & _)|].
       apply Hkey; [repeat constructor | done | set_solver]. }
  destruct (py_join key_order ", " input) as [e|si] eqn:Hji;
    cbn -[String.append py_str py_join py_mul].
  { right. split.
    - intros (_ & _ & (v & s & [= <-] & Hj) & _). congruence.
    - eexists _, _. split; [reflexivity|]. split; [repeat constructor|].
      right. by apply py_join_raises in Hji. }
  destruct (model !! "outputModalities") as [output|] eqn:Hout;
    cbn -[String.append py_str py_join py_mul].
  2: { right. split; [by intros (_ & _ & _ & (? & ? & [=] & _))|].
       apply Hkey; [repeat constructor | done | set_solver]. }
  destruct (py_join key_order ", " output) as [e|so] eqn:Hjo;
    cbn -[String.append py_str py_join py_mul].
  { right. split.
    - intros (_ & _ & _ & (v & s & [= <-] & Hj)). congruence.
    - eexists _, _. split; [reflexivity|]. split; [repeat constructor|].
      right. by apply py_join_raises in Hjo. }
  left. split; [by eauto 10|].
  eexists. split; [reflexivity|]. split; [reflexivity | repeat constructor].
Qed.

Lemma for_report_cases
    (key_order : gmap string value -> list string) (w : Externals)
    (models : list (gmap string value)) :
  (Forall (printable key_order) models
   ∧ ∃ l, for_report key_order w models = (l, inr tt)
          ∧ length l = (5 * length models)%nat
          ∧ Forall (λ r, levelname r = INFO) l)
  ∨ (¬ Forall (printable key_order) models
     ∧ ∃ l e, for_report key_order w models = (l, inl e)
              ∧ Forall (λ r, levelname r = INFO) l
              ∧ ((∃ model key, model ∈ models ∧ e = KeyError key ∧ model !! key = None
                               ∧ key ∈ ["modelId"; "provider";
                                        "inputModalities"; "outputModalities"])
                 ∨ (∃ v, e = TypeError v))).
Proof.
  induction models as [|model models IH]; cbn [for_report].
  - left. split; [constructor|]. exists []. by repeat split.
  - destruct (report_model_cases key_order w model)
      as [(Hpr & l1 & -> & Hlen1 & Hinfo1) | (Hnpr & l1 & e & -> & Hinfo1 & He)].
    + destruct IH as [(Hall & l2 & -> & Hlen2 & Hinfo2)
                     | (Hnall & l2 & e & -> & Hinfo2 & He)].
      * left. split; [by constructor|]. exists (l1 ++ l2). cbn.
        split; [reflexivity|]. split; [rewrite length_app; lia | by apply Forall_app].
      * right. split; [by intros Hall%Forall_cons_1; destruct Hall|].
        exists (l1 ++ l2), e. cbn. split; [reflexivity|].
        split; [by apply Forall_app|].
        destruct He as [(m & key & Hin & -> & Hk & Hkey) | Hv]; [left | by right].
        exists m, key. split; [by apply list_elem_of_further | done].
    + right. split; [by intros Hall%Forall_cons_1; destruct Hall|].
      exists l1, e. cbn. split; [reflexivity|]. split; [done|].
      destruct He as [(key & -> & Hk & Hkey) | Hv]; [left | by right].
      exists model, key. split; [apply list_elem_of_here | done].
Qed.

(** How [main] runs, given how the inventory and the report loop ran. *)
Lemma main_run
    (key_order : gmap string value -> list string) (w : Externals)
    (l : list LogRecord) (r : exn + list (gmap string value)) :
  list_foundation_models w = (l, r) →
  main key_order w =
  match r with
  | inl e =>
      (start_record :: l
         ++ (if isinstance_Exception e
             then [mkLog ERROR ("Failed to list models: " +:+ str_exn w e)]
             else []),
       inl e)
  | inr models =>
      let found := mkLog INFO ("Found " +:+ str_len models +:+ " enabled models:") in
      match for_report key_order w models with
      | (l', inr _) => (start_record :: l ++ found :: l', inr models)
      | (l', inl e) =>
          (start_record :: l ++ found :: l'
             ++ (if isinstance_Exception e
                 then [mkLog ERROR ("Failed to list models: " +:+ str_exn w e)]
                 else []),
           inl e)
      end
  end.
Proof.
  intros Hrun. unfold main, try_except_Exception, start_record.
  cbn -[String.append isinstance_Exception str_len list_foundation_models for_report].
  rewrite Hrun. destruct r as [e|models];
    cbn -[String.append isinstance_Exception str_len for_report].
  - destruct (isinstance_Exception e); cbn; by rewrite ?app_nil_r.
  - destruct (for_report key_order w models) as [l' [e|[]]];
      cbn -[String.append isinstance_Exception str_len].
    + destruct (isinstance_Exception e); cbn -[String.append str_len];
        rewrite ?app_nil_r, <- ?app_assoc; reflexivity.
    + rewrite ?app_nil_r, <- ?app_assoc. reflexivity.
Qed.

(** ** main: the claims of the report *)

Lemma main_outcome
    (key_order : gmap string value -> list string) (w : Externals) :
  outcome (main key_order w) =
  match outcome (list_foundation_models w) with
  | inl e => inl e
  | inr models =>
      match outcome (for_report key_order w models) with
      | inr _ => inr models
      | inl e => inl e
      end
  end.
Proof.
  rewrite (main_run key_order w _ _ (M_eta (list_foundation_models w))).
  destruct (outcome (list_foundation_models w)) as [e|models]; [reflexivity|].
  cbn zeta. unfold outcome at 2.
  by destruct (for_report key_order w models) as [l' [e|u]].
Qed.

(** X8: [main] returns a list exactly when the inventory returned that
    list and every record in it can be printed (its four keys are present
    and both modality values can be joined); it never returns anything but
    the inventory's own list. *)
Theorem main_returns_iff
    (key_order : gmap string value -> list string) (w : Externals)
    (result : list (gmap string value)) :
  outcome (main key_order w) = inr result ↔
  outcome (list_foundation_models w) = inr result
  ∧ Forall (printable key_order) result.
Proof.
  rewrite main_outcome.
  destruct (outcome (list_foundation_models w)) as [e|models].
  { split; [discriminate | by intros [[=] _]]. }
  destruct (for_report_cases key_order w models)
    as [(Hall & l & Hrun & _) | (Hnall & l & e & Hrun & _)];
    unfold outcome at 1; rewrite Hrun; cbn [snd].
  - split; [by intros [= <-] | by intros [[= <-] _]].
  - split; [discriminate | intros [[= <-] Hall]; contradiction].
Qed.

(** X9: an exception of the inventory reaches the caller of [main]
    unchanged; [main] adds one ERROR record after the inventory's log when
    it is an [Exception], and none otherwise. *)
Theorem main_reraises
    (key_order : gmap string value -> list string) (w : Externals)
    (l : list LogRecord) (e : exn) :
  list_foundation_models w = (l, inl e) →
  main key_order w =
  (start_record :: l
     ++ (if isinstance_Exception e
         then [mkLog ERROR ("Failed to list models: " +:+ str_exn w e)]
         else []),
   inl e).
Proof.
  intros Hrun. by rewrite (main_run key_order w l (inl e) Hrun).
Qed.

Lemma main_reraises_witness :
  main sample_key_order world_throttled =
  (start_record :: logged (list_foundation_models world_throttled)
     ++ [mkLog ERROR "Failed to list models: ClientError"],
   inl throttling).
Proof.
  apply (main_reraises sample_key_order world_throttled
           (logged (list_foundation_models world_throttled)) throttling).
  reflexivity.
Defined.

(** X10: an [Exception] raised by the SDK while the client is built is
    logged three times, once by each layer it crosses (factory, inventory,
    [main]), and reaches the caller of [main] unchanged. *)
Theorem sdk_failure_is_logged_three_times
    (key_order : gmap string value -> list string) (w : Externals)
    (l : list LogRecord) (b : bool) (e : exn) :
  verify_private_connection w = (l, inr b) →
  sdk_client w "us-east-1" = inl e →
  isinstance_Exception e = true →
  isinstance_ClientError e = false →
  main key_order w =
  (start_record :: l
     ++ (if b then []
         else [mkLog WARNING "Traffic might be flowing over public internet!"])
     ++ [mkLog ERROR ("Error creating Bedrock client: " +:+ str_exn w e);
         mkLog ERROR ("Unexpected error: " +:+ str_exn w e);
         mkLog ERROR ("Failed to list models: " +:+ str_exn w e)],
   inl e).
Proof.
  intros Hcheck Hsdk Hexc Hnot.
  pose proof (get_bedrock_client_run w None l b Hcheck) as Hfactory.
  cbn [default] in Hfactory. rewrite Hsdk, Hexc in Hfactory.
  assert (list_foundation_models w =
          (l ++ (if b then []
                 else [mkLog WARNING "Traffic might be flowing over public internet!"])
             ++ [mkLog ERROR ("Error creating Bedrock client: " +:+ str_exn w e);
                 mkLog ERROR ("Unexpected error: " +:+ str_exn w e)],
           inl e)) as Hrun.
  { unfold list_foundation_models, list_foundation_models_body,
      try_except_ClientError_Exception.
    rewrite Hfactory. cbn -[String.append isinstance_Exception isinstance_ClientError].
    rewrite Hnot, Hexc. cbn -[String.append].
    by rewrite <- !app_assoc. }
  rewrite (main_run key_order w _ (inl e) Hrun), Hexc.
  by rewrite <- !app_assoc.
Qed.

Lemma sdk_failure_is_logged_three_times_witness :
  main sample_key_order world_no_credentials =
  (start_record :: logged (verify_private_connection world_no_credentials)
     ++ [mkLog WARNING "Traffic might be flowing over public internet!"]
     ++ [mkLog ERROR "Error creating Bedrock client: NoCredentialsError";
         mkLog ERROR "Unexpected error: NoCredentialsError";
         mkLog ERROR "Failed to list models: NoCredentialsError"],
   inl no_credentials).
Proof.
  apply (sdk_failure_is_logged_three_times sample_key_order world_no_credentials
           (logged (verify_private_connection world_no_credentials)) false
           no_credentials);
    reflexivity.
Defined.

(** X11: an exception of the resolver that is not an [Exception] (a
    keyboard interrupt, say) crosses the check, the factory, the inventory
    and [main] unchanged, and no handler on the way logs anything: the log
    of the run is the start record alone. *)
Theorem interrupt_passes_through
    (key_order : gmap string value -> list string) (w : Externals) (e : exn) :
  socket_gethostbyname w bedrock_endpoint = inl e →
  isinstance_Exception e = false →
  verify_private_connection w = ([], inl e)
  ∧ get_bedrock_client w None = ([], inl e)
  ∧ list_foundation_models w = ([], inl e)
  ∧ main key_order w = ([start_record], inl e).
Proof.
  intros Hres Hnot.
  assert (verify_private_connection w = ([], inl e)) as Hcheck.
  { unfold verify_private_connection.
    change "bedrock.us-east-1.amazonaws.com" with bedrock_endpoint.
    rewrite Hres. cbn -[isinstance_Exception]. by rewrite Hnot. }
  assert (get_bedrock_client w None = ([], inl e)) as Hfactory.
  { unfold get_bedrock_client. rewrite Hcheck. cbn -[isinstance_Exception].
    by rewrite Hnot. }
  assert (list_foundation_models w = ([], inl e)) as Hrun.
  { unfold list_foundation_models, list_foundation_models_body,
      try_except_ClientError_Exception.
    rewrite Hfactory. cbn -[isinstance_Exception isinstance_ClientError].
    rewrite Hnot. by destruct e. }
  repeat split; try done.
  rewrite (main_run key_order w [] (inl e) Hrun). by rewrite Hnot.
Qed.

Lemma interrupt_passes_through_witness :
  verify_private_connection world_interrupted = ([], inl (NonException "KeyboardInterrupt"))
  ∧ get_bedrock_client world_interrupted None = ([], inl (NonException "KeyboardInterrupt"))
  ∧ list_foundation_models world_interrupted = ([], inl (NonException "KeyboardInterrupt"))
  ∧ main sample_key_order world_interrupted =
    ([start_record], inl (NonException "KeyboardInterrupt")).
Proof.
  apply (interrupt_passes_through sample_key_order world_interrupted
           (NonException "KeyboardInterrupt")); reflexivity.
Defined.

(** The records the inventory returns always carry the four keys. *)
Lemma list_foundation_models_four_keys
    (w : Externals) (result : list (gmap string value)) :
  outcome (list_foundation_models w) = inr result →
  Forall (λ em : gmap string value,
            ∀ key, key ∈ ["modelId"; "provider"; "inputModalities"; "outputModalities"] →
                   is_Some (em !! key)) result.
Proof.
  intros Hrun. apply list_foundation_models_returns in Hrun.
  rewrite list_foundation_models_body_outcome in Hrun.
  destruct (paginator_pages w) as [e|s]; [discriminate|].
  apply for_pages_sound in Hrun as (entries & ems & _ & -> & Hall).
  cbn [app]. clear -Hall.
  induction Hall as [|m em ms ems Hem _ IH]; constructor; [|exact IH].
  apply enabled_model_normalizes in Hem as (d & model_id & provider & _ & _ & _ & ->).
  intros key Hkey.
  repeat (apply elem_of_cons in Hkey as [-> | Hkey]; [by eexists|]).
  by apply elem_of_nil in Hkey.
Qed.

(** After the inventory has returned, [main] either returns the same list
    or fails in [join]. *)
Lemma main_after_inventory
    (key_order : gmap string value -> list string) (w : Externals)
    (result : list (gmap string value)) :
  outcome (list_foundation_models w) = inr result →
  (Forall (printable key_order) result ∧ outcome (main key_order w) = inr result)
  ∨ (¬ Forall (printable key_order) result
     ∧ ∃ v, outcome (main key_order w) = inl (TypeError v)).
Proof.
  intros Hrun. pose proof (list_foundation_models_four_keys w result Hrun) as Hkeys.
  rewrite main_outcome, Hrun.
  destruct (for_report_cases key_order w result)
    as [(Hall & l & Hrep & _) | (Hnall & l & e & Hrep & _ & [Hkey | [v ->]])];
    unfold outcome; rewrite Hrep; cbn [snd];
    [by left | | right; split; [done | by exists v]].
  exfalso. destruct Hkey as (em & key & Hin & _ & Hnone & Hkey).
  rewrite Forall_forall in Hkeys.
  destruct (Hkeys em Hin key Hkey) as [v Hv]. congruence.
Qed.

(** X12: after the inventory has returned, the only exception [main] can
    raise is the [TypeError] of [join]: the subscripts of the report loop
    cannot fail, because every record the inventory returns carries the
    four keys. *)
Theorem main_fails_only_in_join
    (key_order : gmap string value -> list string) (w : Externals)
    (result : list (gmap string value)) :
  outcome (list_foundation_models w) = inr result →
  outcome (main key_order w) = inr result
  ∨ ∃ v, outcome (main key_order w) = inl (TypeError v).
Proof.
  intros Hrun.
  destruct (main_after_inventory key_order w result Hrun) as [[_ H] | [_ H]];
    [by left | by right].
Qed.

Lemma main_fails_only_in_join_witness :
  outcome (main sample_key_order world_null_modality)
  = inr [({[ "modelId" := VStr "m5"; "provider" := VStr "provider";
             "inputModalities" := VNone; "outputModalities" := VList [] ]}
          : gmap string value)]
  ∨ ∃ v, outcome (main sample_key_order world_null_modality) = inl (TypeError v).
Proof.
  apply (main_fails_only_in_join sample_key_order world_null_modality).
  reflexivity.
Defined.

Lemma string_list_join
    (key_order : gmap string value -> list string) (sep : string) (v : value) :
  string_list v = true → ∃ s, py_join key_order sep v = inr s.
Proof.
  destruct v as [| | | |l|]; try discriminate. cbn [string_list py_join].
  induction l as [|item l IH]; cbn [forallb join_items]; [by eexists|].
  destruct item as [| | |s| |]; try discriminate. cbn.
  intros [s' ->]%IH. by eexists.
Qed.

(** X13: the empty-list default of the modality fields applies to an
    absent key only.  A value that is present is copied as it is, so an
    ACTIVE entry whose modality is null (or anything else [join] rejects)
    is returned by the inventory with that value, and [main] then raises
    [TypeError] instead of returning the list. *)
Theorem present_modality_is_not_defaulted
    (key_order : gmap string value -> list string) (w : Externals)
    (pages : list value) (mss : list (list value))
    (d : gmap string value) (v : value) (e0 : exn) :
  paginator_pages w = inr (stream_of pages) →
  Forall2 (λ p ms, page_models p = Some ms) pages mss →
  Forall (λ m, summary_ok m = true) (concat mss) →
  VDict d ∈ concat mss →
  lifecycle_status (VDict d) = Some (VStr "ACTIVE") →
  d !! "inputModalities" = Some v ∨ d !! "outputModalities" = Some v →
  py_join key_order ", " v = inl e0 →
  (∃ result em,
     outcome (list_foundation_models w) = inr result
     ∧ em ∈ result
     ∧ (em !! "inputModalities" = Some v ∨ em !! "outputModalities" = Some v))
  ∧ ∃ v', outcome (main key_order w) = inl (TypeError v').
Proof.
  intros Hw Hpages Hok Hin Hact Hmod Hjoin.
  destruct (for_pages_summary_ok pages mss [] Hpages Hok) as (result & Hrun & Hall).
  assert (outcome (list_foundation_models w) = inr result) as Hres.
  { apply list_foundation_models_returns.
    by rewrite list_foundation_models_body_outcome, Hw, Hrun. }
  assert (VDict d ∈ List.filter (status_is "ACTIVE") (concat mss)) as Hkept.
  { rewrite list_elem_of_In, List.filter_In, <- list_elem_of_In, status_is_true.
    by split. }
  apply list_elem_of_lookup in Hkept as [i Hi].
  destruct (Forall2_lookup_l _ _ _ _ _ Hall Hi) as (em & Hem & Hproj).
  apply enabled_model_normalizes in Hproj
    as (d' & model_id & provider & [= <-] & _ & _ & ->).
  set (em := ({[ "modelId" := model_id; "provider" := provider;
                 "inputModalities" := default (VList []) (d !! "inputModalities");
                 "outputModalities" := default (VList []) (d !! "outputModalities") ]}
              : gmap string value)) in *.
  assert (em !! "inputModalities" = Some v ∨ em !! "outputModalities" = Some v) as Hcopy.
  { destruct Hmod as [Hv | Hv]; [left | right]; subst em; by rewrite Hv. }
  assert (em ∈ result) as Hinres by (by eapply list_elem_of_lookup_2).
  split; [by exists result, em|].
  destruct (main_after_inventory key_order w result Hres) as [[Hall' _] | [_ H]];
    [|exact H].
  exfalso. rewrite Forall_forall in Hall'.
  destruct (Hall' em Hinres) as (_ & _ & (vi & si & Hvi & Hji) & (vo & so & Hvo & Hjo)).
  destruct Hcopy as [Hc | Hc]; congruence.
Qed.

Lemma present_modality_is_not_defaulted_witness :
  (∃ result em,
     outcome (list_foundation_models world_null_modality) = inr result
     ∧ em ∈ result
     ∧ (em !! "inputModalities" = Some VNone ∨ em !! "outputModalities" = Some VNone))
  ∧ ∃ v', outcome (main sample_key_order world_null_modality) = inl (TypeError v').
Proof.
  apply (present_modality_is_not_defaulted sample_key_order world_null_modality
           [sample_page [VDict model_null_modality]] [[VDict model_null_modality]]
           model_null_modality VNone (TypeError VNone)).
  - reflexivity.
  - repeat constructor.
  - repeat constructor.
  - apply list_elem_of_here.
  - reflexivity.
  - left. reflexivity.
  - reflexivity.
Defined.

Lemma enabled_model_printable
    (key_order : gmap string value -> list string)
    (model : value) (em : gmap string value) :
  modalities_ok model = true →
  enabled_model model = inr em →
  printable key_order em.
Proof.
  intros Hmod (d & model_id & provider & -> & _ & _ & ->)%enabled_model_normalizes.
  cbn [modalities_ok] in Hmod. apply andb_true_iff in Hmod as [Hin Hout].
  repeat split; [by eexists | by eexists | |].
  - eexists (default (VList []) (d !! "inputModalities")).
    destruct (d !! "inputModalities") as [v|]; cbn [default].
    + destruct (string_list_join key_order ", " v Hin) as [s Hs]. by exists s.
    + by exists EmptyString.
  - eexists (default (VList []) (d !! "outputModalities")).
    destruct (d !! "outputModalities") as [v|]; cbn [default].
    + destruct (string_list_join key_order ", " v Hout) as [s Hs]. by exists s.
    + by exists EmptyString.
Qed.

(** X14: when the paginator delivers pages of model summaries whose
    modality fields, where present, are lists of strings, [main] returns
    the inventory's list, one record per ACTIVE entry, and its log is: the
    start record, the factory's log, the count, and then five INFO records
    for each model returned. *)
Theorem main_reports_every_model
    (key_order : gmap string value -> list string) (w : Externals)
    (pages : list value) (mss : list (list value)) :
  paginator_pages w = inr (stream_of pages) →
  Forall2 (λ p ms, page_models p = Some ms) pages mss →
  Forall (λ m, summary_ok m = true) (concat mss) →
  Forall (λ m, modalities_ok m = true) (concat mss) →
  ∃ result lines,
    main key_order w =
    (start_record :: logged (get_bedrock_client w None)
       ++ mkLog INFO ("Found " +:+ str_len result +:+ " enabled models:") :: lines,
     inr result)
    ∧ length result = length (List.filter (status_is "ACTIVE") (concat mss))
    ∧ length lines = (5 * length result)%nat
    ∧ Forall (λ r, levelname r = INFO) lines.
Proof.
  intros Hw Hpages Hok Hmod.
  destruct (for_pages_summary_ok pages mss [] Hpages Hok) as (result & Hrun & Hall).
  assert (outcome (list_foundation_models w) = inr result) as Hres.
  { apply list_foundation_models_returns.
    by rewrite list_foundation_models_body_outcome, Hw, Hrun. }
  assert (Forall (printable key_order) result) as Hprint.
  { assert (Forall (λ m, modalities_ok m = true)
              (List.filter (status_is "ACTIVE") (concat mss))) as Hmod'.
    { rewrite Forall_forall in Hmod |- *. intros m Hm. apply Hmod.
      rewrite list_elem_of_In, List.filter_In, <- list_elem_of_In in Hm. tauto. }
    clear -Hall Hmod'.
    induction Hall as [|m em ms ems Hem _ IH]; [constructor|].
    apply Forall_cons_1 in Hmod' as [Hm Hms].
    constructor; [by eapply enabled_model_printable | by apply IH]. }
  destruct (for_report_cases key_order w result)
    as [(_ & lines & Hrep & Hlen & Hinfo) | (Hnot & _)]; [|contradiction].
  exists result, lines. split; [|split; [|split]].
  - rewrite (main_run key_order w _ _ (list_foundation_models_log_on_success w result Hres)).
    cbn zeta. by rewrite Hrep.
  - symmetry. by eapply Forall2_length.
  - exact Hlen.
  - exact Hinfo.
Qed.

Lemma main_reports_every_model_witness :
  ∃ result lines,
    main sample_key_order world_two_pages =
    (start_record :: logged (get_bedrock_client world_two_pages None)
       ++ mkLog INFO ("Found " +:+ str_len result +:+ " enabled models:") :: lines,
     inr result)
    ∧ length result =
      length (List.filter (status_is "ACTIVE")
                (concat [[sample_model "a" "ACTIVE"];
                         [sample_model "b" "ACTIVE"; sample_model "c" "LEGACY"]]))
    ∧ length lines = (5 * length result)%nat
    ∧ Forall (λ r, levelname r = INFO) lines.
Proof.
  apply (main_reports_every_model sample_key_order world_two_pages two_pages).
  - reflexivity.
  - repeat constructor.
  - repeat constructor.
  - repeat constructor.
Defined.

(** ** The resolver and the listing *)

Lemma report_model_outcome
    (key_order : gmap string value -> list string) (w1 w2 : Externals)
    (model : gmap string value) :
  outcome (report_model key_order w1 model) = outcome (report_model key_order w2 model).
Proof.
  unfold report_model, outcome, py_getitem.
  destruct (model !! "modelId"); cbn -[String.append py_str py_join py_mul]; [|done].
  destruct (model !! "provider"); cbn -[String.append py_str py_join py_mul]; [|done].
  destruct (model !! "inputModalities") as [input|];
    cbn -[String.append py_str py_join py_mul]; [|done].
  destruct (py_join key_order ", " input);
    cbn -[String.append py_str py_join py_mul]; [done|].
  destruct (model !! "outputModalities") as [output|];
    cbn -[String.append py_str py_join py_mul]; [|done].
  by destruct (py_join key_order ", " output).
Qed.

Lemma for_report_outcome
    (key_order : gmap string value -> list string) (w1 w2 : Externals)
    (models : list (gmap string value)) :
  outcome (for_report key_order w1 models) = outcome (for_report key_order w2 models).
Proof.
  induction models as [|model models IH]; [reflexivity|].
  cbn [for_report]. pose proof (report_model_outcome key_order w1 w2 model) as Hm.
  unfold outcome in *.
  destruct (report_model key_order w1 model) as [l1 [e1|[]]],
           (report_model key_order w2 model) as [l2 [e2|[]]];
    cbn in *; try congruence.
  destruct (for_report key_order w1 models) as [l1' r1],
           (for_report key_order w2 models) as [l2' r2]. by cbn in *.
Qed.

Lemma list_foundation_models_outcome (w : Externals) :
  outcome (list_foundation_models w) =
  match paginator_pages w with
  | inr s =>
      match for_pages s [] with
      | inr result => inr result
      | inl e => inl (reraised e)
      end
  | inl e => inl (reraised e)
  end.
Proof.
  pose proof (list_foundation_models_run w _ _ (M_eta (list_foundation_models_body w)))
    as Hfull.
  rewrite list_foundation_models_body_outcome in Hfull.
  destruct (paginator_pages w) as [e|s]; [exact Hfull|].
  destruct (for_pages s []) as [e|result]; [exact Hfull|].
  by rewrite Hfull.
Qed.

(** X15: what the resolver answered has no influence on the listing: two
    runs that share the SDK and in which the connectivity check returned
    (whatever boolean) have the same outcome of the inventory and the same
    outcome of [main]. *)
Theorem resolver_does_not_change_the_listing
    (key_order : gmap string value -> list string) (w1 w2 : Externals) (b1 b2 : bool) :
  botocore_Config w1 = botocore_Config w2 →
  boto3_client w1 = boto3_client w2 →
  outcome (verify_private_connection w1) = inr b1 →
  outcome (verify_private_connection w2) = inr b2 →
  outcome (list_foundation_models w1) = outcome (list_foundation_models w2)
  ∧ outcome (main key_order w1) = outcome (main key_order w2).
Proof.
  intros Hcfg Hsdk H1 H2.
  assert (outcome (list_foundation_models w1) = outcome (list_foundation_models w2))
    as Hsame.
  { rewrite !list_foundation_models_outcome. unfold paginator_pages.
    rewrite !get_bedrock_client_outcome, H1, H2.
    unfold sdk_client. by rewrite Hcfg, Hsdk. }
  split; [exact Hsame|].
  rewrite !main_outcome, Hsame.
  destruct (outcome (list_foundation_models w2)) as [e|models]; [reflexivity|].
  by rewrite (for_report_outcome key_order w1 w2 models).
Qed.

Lemma resolver_does_not_change_the_listing_witness :
  outcome (list_foundation_models world_private)
  = outcome (list_foundation_models world_unresolved)
  ∧ outcome (main sample_key_order world_private)
    = outcome (main sample_key_order world_unresolved).
Proof.
  apply (resolver_does_not_change_the_listing sample_key_order
           world_private world_unresolved true false); reflexivity.
Defined.

(** X16: every record the inventory returns has exactly the keys
    [modelId], [provider], [inputModalities] and [outputModalities]: no
    other field of the service's entry (not even [providerName] or
    [modelLifecycle]) is carried over. *)
Theorem list_foundation_models_record_keys
    (w : Externals) (result : list (gmap string value)) :
  outcome (list_foundation_models w) = inr result →
  Forall (λ em : gmap string value,
            ∀ key, is_Some (em !! key) ↔
                   key ∈ ["modelId"; "provider"; "inputModalities"; "outputModalities"])
         result.
Proof.
  intros Hrun. apply list_foundation_models_returns in Hrun.
  rewrite list_foundation_models_body_outcome in Hrun.
  destruct (paginator_pages w) as [e|s]; [discriminate|].
  apply for_pages_sound in Hrun as (entries & ems & _ & -> & Hall).
  cbn [app]. clear -Hall.
  induction Hall as [|m em ms ems Hem _ IH]; constructor; [|exact IH].
  apply enabled_model_normalizes in Hem as (d & model_id & provider & _ & _ & _ & ->).
  intros key. split.
  - intros [v Hv].
    destruct (decide (key = "modelId")) as [->|H1]; [set_solver|].
    destruct (decide (key = "provider")) as [->|H2]; [set_solver|].
    destruct (decide (key = "inputModalities")) as [->|H3]; [set_solver|].
    destruct (decide (key = "outputModalities")) as [->|H4]; [set_solver|].
    rewrite !lookup_insert_ne, lookup_singleton_ne in Hv by done. discriminate.
  - intros Hkey.
    repeat (apply elem_of_cons in Hkey as [-> | Hkey]; [by eexists|]).
    by apply elem_of_nil in Hkey.
Qed.

Lemma list_foundation_models_record_keys_witness :
  Forall (λ em : gmap string value,
            ∀ key, is_Some (em !! key) ↔
                   key ∈ ["modelId"; "provider"; "inputModalities"; "outputModalities"])
         [sample_enabled "a"; sample_enabled "b"].
Proof.
  apply (list_foundation_models_record_keys world_two_pages).
  reflexivity.
Defined.
